(** * Library_Management: the lending lifecycle of the backend

    A shallow embedding of the Mongoose models [Transaction] (models/Transaction.js),
    [Book] (models/Book.js) and [Review] (models/Review.js), and of the Express
    route handlers of routes/books.js, routes/transactions.js and routes/reviews.js
    that drive them.

    Conventions of the embedding:
    - a [Date] is its millisecond timestamp, a [Z]; [now] is the value of
      [new Date()] / [Date.now()] during one request;
    - a MongoDB collection is a list of documents in natural (insertion) order;
      [findOne] returns the first match, [save] replaces the document with the
      same [_id], a new document is appended;
    - money is counted in cents: the source's [0.50] is [50], [25.00] is [2500];
    - a route handler is a function from the store to an outcome and the new
      store; an early [return res.status(...)] is a failure that leaves the
      store as it was. *)

From Stdlib Require Import ZArith List Bool String QArith Qround Lia.
Import ListNotations.
Open Scope Z_scope.

(** ** Enumerations of the schemas *)

Inductive TxType :=
  | T_borrow | T_return | T_renew | T_reserve | T_cancel_reservation
  | T_late_return | T_lost_book | T_damaged_book.

Inductive TxStatus :=
  | S_pending | S_active | S_completed | S_overdue | S_cancelled | S_lost | S_damaged.

Inductive FineStatus := F_none | F_pending | F_paid | F_waived | F_disputed.

Inductive Condition := C_new | C_excellent | C_good | C_fair | C_poor | C_damaged.

Inductive Format := hardcover | paperback | ebook | audiobook | magazine | journal.

Scheme Equality for TxType.
Scheme Equality for TxStatus.
Scheme Equality for FineStatus.
Scheme Equality for Condition.

(** ** The Transaction document *)

Record Transaction := mkTx {
  t_id : nat;                       (* _id *)
  t_user : nat;                     (* user *)
  t_book : nat;                     (* book *)
  t_type : TxType;                  (* type *)
  status : TxStatus;                (* status, default 'pending' *)
  borrowDate : Z;                   (* default Date.now *)
  dueDate : option Z;
  returnDate : option Z;
  actualReturnDate : option Z;
  renewalCount : Z;                 (* default 0 *)
  maxRenewals : Z;                  (* default 3 *)
  lastRenewalDate : option Z;
  reservationDate : option Z;
  reservationExpiry : option Z;
  fineAmount : Z;                   (* cents, default 0 *)
  fineStatus : FineStatus;          (* default 'none' *)
  bookConditionAtBorrow : Condition;
  bookConditionAtReturn : option Condition;
  conditionNotes : string;
  isDigital : bool                  (* default false *)
}.

(** One day in milliseconds: [24 * 60 * 60 * 1000]. *)
Definition DAY : Z := 24 * 60 * 60 * 1000.

(** [Math.ceil(x / DAY)] for an integer number of milliseconds [x]. *)
Definition ceil_days (x : Z) : Z := - ((- x) / DAY).

(** The statuses a loan holds a copy in: [{ $in: ['active', 'overdue'] }]. *)
Definition is_loan (s : TxStatus) : bool :=
  match s with S_active | S_overdue => true | _ => false end.

(** virtual [isOverdue]:
    [this.dueDate && new Date() > this.dueDate && this.status === 'active']. *)
Definition isOverdue (now : Z) (t : Transaction) : bool :=
  match dueDate t with
  | Some d => (d <? now) && TxStatus_beq (status t) S_active
  | None => false
  end.

(** virtual [daysOverdue]: 0 unless the status is 'overdue' and a due date is set. *)
Definition daysOverdue (now : Z) (t : Transaction) : Z :=
  match dueDate t with
  | Some d => if TxStatus_beq (status t) S_overdue then ceil_days (now - d) else 0
  | None => 0
  end.

(** virtual [canRenew]. *)
Definition canRenew (now : Z) (t : Transaction) : bool :=
  TxType_beq (t_type t) T_borrow && TxStatus_beq (status t) S_active
  && (renewalCount t <? maxRenewals t)
  && match dueDate t with Some d => now <? d | None => false end.

(** Record updates used by the methods below. *)
Definition set_status (s : TxStatus) (t : Transaction) : Transaction :=
  mkTx (t_id t) (t_user t) (t_book t) (t_type t) s (borrowDate t) (dueDate t)
    (returnDate t) (actualReturnDate t) (renewalCount t) (maxRenewals t)
    (lastRenewalDate t) (reservationDate t) (reservationExpiry t) (fineAmount t)
    (fineStatus t) (bookConditionAtBorrow t) (bookConditionAtReturn t)
    (conditionNotes t) (isDigital t).

Definition set_fine (amount : Z) (fs : FineStatus) (t : Transaction) : Transaction :=
  mkTx (t_id t) (t_user t) (t_book t) (t_type t) (status t) (borrowDate t) (dueDate t)
    (returnDate t) (actualReturnDate t) (renewalCount t) (maxRenewals t)
    (lastRenewalDate t) (reservationDate t) (reservationExpiry t) amount
    fs (bookConditionAtBorrow t) (bookConditionAtReturn t)
    (conditionNotes t) (isDigital t).

Definition set_dueDate (d : option Z) (t : Transaction) : Transaction :=
  mkTx (t_id t) (t_user t) (t_book t) (t_type t) (status t) (borrowDate t) d
    (returnDate t) (actualReturnDate t) (renewalCount t) (maxRenewals t)
    (lastRenewalDate t) (reservationDate t) (reservationExpiry t) (fineAmount t)
    (fineStatus t) (bookConditionAtBorrow t) (bookConditionAtReturn t)
    (conditionNotes t) (isDigital t).

(** The two [pre('save')] hooks, in their registration order. *)
Definition tx_pre_save (now : Z) (isNew : bool) (t : Transaction) : Transaction :=
  let t1 :=
    if isNew && TxType_beq (t_type t) T_borrow
       && match dueDate t with None => true | Some _ => false end
    then let borrowPeriod := if isDigital t then 14 else 21 in
         set_dueDate (Some (now + borrowPeriod * DAY)) t
    else t in
  if isOverdue now t1 && TxStatus_beq (status t1) S_active
  then set_status S_overdue t1 else t1.

(** method [calculateFine]. *)
Definition calculateFine (now : Z) (t : Transaction) : Transaction :=
  if FineStatus_beq (fineStatus t) F_paid || FineStatus_beq (fineStatus t) F_waived
  then t
  else if negb (isOverdue now t) then set_fine 0 F_none t
  else
    let baseFine := 50 in
    let maxFine := 2500 in
    let amount := Z.min (daysOverdue now t * baseFine) maxFine in
    set_fine amount (if 0 <? amount then F_pending else F_none) t.

(** method [renew(days = 14)], with the [save] it returns;
    [None] is the thrown 'Transaction cannot be renewed'. *)
Definition renew (now days : Z) (t : Transaction) : option Transaction :=
  if negb (canRenew now t) then None
  else Some (tx_pre_save now false
    (mkTx (t_id t) (t_user t) (t_book t) T_renew (status t) (borrowDate t)
       (Some (now + days * DAY)) (returnDate t) (actualReturnDate t)
       (renewalCount t + 1) (maxRenewals t) (Some now) (reservationDate t)
       (reservationExpiry t) (fineAmount t) (fineStatus t)
       (bookConditionAtBorrow t) (bookConditionAtReturn t) (conditionNotes t)
       (isDigital t))).

(** method [returnBook(condition = null, notes = '')], with the [save] it
    returns; [None] is the thrown 'Transaction is not active'. *)
Definition returnBook (now : Z) (condition : option Condition) (notes : string)
    (t : Transaction) : option Transaction :=
  if negb (TxStatus_beq (status t) S_active) && negb (TxStatus_beq (status t) S_overdue)
  then None
  else
    let t1 :=
      mkTx (t_id t) (t_user t) (t_book t) (t_type t) S_completed (borrowDate t)
        (dueDate t) (Some now) (Some now) (renewalCount t) (maxRenewals t)
        (lastRenewalDate t) (reservationDate t) (reservationExpiry t)
        (fineAmount t) (fineStatus t) (bookConditionAtBorrow t)
        (match condition with Some c => Some c | None => bookConditionAtReturn t end)
        (if String.eqb notes EmptyString then conditionNotes t else notes)
        (isDigital t) in
    Some (tx_pre_save now false (calculateFine now t1)).

(** static [findOverdue]: [{ status: 'active', dueDate: { $lt: new Date() } }]. *)
Definition findOverdue (now : Z) (txs : list Transaction) : list Transaction :=
  filter (fun t => TxStatus_beq (status t) S_active &&
                   match dueDate t with Some d => d <? now | None => false end) txs.

(** ** The Book document *)

Record Book := mkBook {
  b_id : nat;                       (* _id *)
  totalCopies : Z;
  availableCopies : Z;              (* default: totalCopies *)
  isAvailable : bool;               (* default true, recomputed on save *)
  b_isActive : bool;                (* isActive *)
  isDeleted : bool;
  condition : Condition;            (* default 'new' *)
  format : Format;                  (* default 'paperback' *)
  averageRating : Q;
  totalRatings : Z;
  totalReviews : Z
}.

Definition set_availableCopies (n : Z) (b : Book) : Book :=
  mkBook (b_id b) (totalCopies b) n (isAvailable b) (b_isActive b) (isDeleted b)
    (condition b) (format b) (averageRating b) (totalRatings b) (totalReviews b).

(** [bookSchema.pre('save')]:
    [this.isAvailable = this.availableCopies > 0 && !this.isDeleted]. *)
Definition book_pre_save (b : Book) : Book :=
  mkBook (b_id b) (totalCopies b) (availableCopies b)
    ((0 <? availableCopies b) && negb (isDeleted b)) (b_isActive b) (isDeleted b)
    (condition b) (format b) (averageRating b) (totalRatings b) (totalReviews b).

(** method [canBeBorrowed]. *)
Definition canBeBorrowed (b : Book) : bool :=
  isAvailable b && (0 <? availableCopies b) && negb (isDeleted b)
  && negb (Condition_beq (condition b) C_damaged).

(** ** The User document

    Modelled from the spec: models/User.js is not among the sources; the record
    holds the fields the spec lists for a User and the route handlers use
    ([role], [membershipType], [currentBorrowedBooks], [totalBooksBorrowed],
    [totalBooksRead]); no save hook of that model is modelled. *)

Inductive Role := R_admin | R_librarian | R_member | R_student.
Inductive Membership := M_basic | M_premium | M_student | M_faculty.

Record User := mkUser {
  u_id : nat;
  role : Role;
  membershipType : Membership;
  currentBorrowedBooks : list nat;
  totalBooksBorrowed : Z;
  totalBooksRead : Z
}.

(** middleware [checkBorrowingLimits] (middleware/auth.js): [true] lets the
    request through, [false] is the 'BORROWING_LIMIT_EXCEEDED' reply. *)
Definition membershipLimit (m : Membership) : Z :=
  match m with M_basic => 3 | M_premium => 10 | M_student => 5 | M_faculty => 8 end.

Definition checkBorrowingLimits (u : User) : bool :=
  negb (membershipLimit (membershipType u) <=? Z.of_nat (List.length (currentBorrowedBooks u))).

Definition is_staff (r : Role) : bool :=
  match r with R_admin | R_librarian => true | _ => false end.

(** ** The Review document *)

Inductive ReviewStatus := RS_draft | RS_published | RS_hidden | RS_reported | RS_removed.
Scheme Equality for ReviewStatus.

Record Review := mkReview {
  r_id : nat;
  r_user : nat;
  r_book : nat;
  rating : Z;
  r_status : ReviewStatus
}.

(** ** The database: one list per collection *)

Record Store := mkStore {
  books : list Book;
  users : list User;
  txs : list Transaction;
  reviews : list Review
}.

Definition with_books (l : list Book) (s : Store) : Store :=
  mkStore l (users s) (txs s) (reviews s).
Definition with_users (l : list User) (s : Store) : Store :=
  mkStore (books s) l (txs s) (reviews s).
Definition with_txs (l : list Transaction) (s : Store) : Store :=
  mkStore (books s) (users s) l (reviews s).
Definition with_reviews (l : list Review) (s : Store) : Store :=
  mkStore (books s) (users s) (txs s) l.

(** [Model.findById]. *)
Definition find_book (id : nat) (s : Store) : option Book :=
  find (fun b => Nat.eqb (b_id b) id) (books s).
Definition find_user (id : nat) (s : Store) : option User :=
  find (fun u => Nat.eqb (u_id u) id) (users s).
Definition find_tx (id : nat) (s : Store) : option Transaction :=
  find (fun t => Nat.eqb (t_id t) id) (txs s).
Definition find_review (id : nat) (s : Store) : option Review :=
  find (fun r => Nat.eqb (r_id r) id) (reviews s).

(** [doc.save()] of a document already in its collection: the document with
    the same [_id] is replaced. *)
Definition replace_by_key {A} (key : A -> nat) (x : A) (l : list A) : list A :=
  map (fun y => if Nat.eqb (key y) (key x) then x else y) l.

Definition save_book (b : Book) (s : Store) : Store :=
  with_books (replace_by_key b_id b (books s)) s.
Definition save_user (u : User) (s : Store) : Store :=
  with_users (replace_by_key u_id u (users s)) s.
Definition save_tx (t : Transaction) (s : Store) : Store :=
  with_txs (replace_by_key t_id t (txs s)) s.
Definition save_review (r : Review) (s : Store) : Store :=
  with_reviews (replace_by_key r_id r (reviews s)) s.

(** A fresh ObjectId for a new transaction: larger than every id in use. *)
Definition new_id (l : list Transaction) : nat :=
  S (fold_right Nat.max 0%nat (map t_id l)).

(** [new Transaction({...})] with the schema defaults for the fields not given. *)
Definition new_tx (id user book : nat) (ty : TxType) (st : TxStatus) (now : Z)
    (resDate resExpiry : option Z) (condAtBorrow : Condition) : Transaction :=
  mkTx id user book ty st now None None None 0 3 None resDate resExpiry 0 F_none
    condAtBorrow None EmptyString false.

(** ** Outcomes of a route handler *)

Inductive Err :=
  | Unauthorized    (* authenticateToken found no user *)
  | Forbidden       (* 403 'Access denied' *)
  | NotFound | Unavailable | DuplicateLoan | LimitExceeded
  | NotActive | NotRenewable
  | ServerError.    (* an exception caught by the handler: 500 *)

Inductive Outcome := Ok | Fail (e : Err).

(** ** Route handlers of the lending lifecycle

    Each handler starts where [authenticateToken] has loaded [req.user] (the
    user [uid]); the role checks of [authorize(...)] and the express-validator
    checks run before the handler and are the caller's. *)

Definition set_user_loans (books_ : list nat) (borrowed read : Z) (u : User) : User :=
  mkUser (u_id u) (role u) (membershipType u) books_ borrowed read.

(** The validators of the Transaction schema that a document built by the
    routes can fail: [dueDate] is [required] when [type] is 'borrow' or
    'renew'.  [save()] runs validation before the [pre('save')] hooks (the
    built-in [validateBeforeSave] hook is put first), so a missing [dueDate]
    fails the save before the hook that would set it. *)
Definition tx_validate (t : Transaction) : bool :=
  match t_type t with
  | T_borrow | T_renew => match dueDate t with Some _ => true | None => false end
  | _ => true
  end.

(** [POST /api/books/:id/borrow] (routes/books.js).  The transaction it
    creates has no [dueDate], so [transaction.save()] rejects with a
    ValidationError: the handler answers 500 and nothing is written.  The
    writes after the save are kept as the code has them. *)
Definition borrow (now : Z) (uid bid : nat) (s : Store) : Outcome * Store :=
  match find_user uid s with
  | None => (Fail Unauthorized, s)
  | Some u =>
    match find_book bid s with
    | None => (Fail NotFound, s)
    | Some b =>
      if negb (b_isActive b) || isDeleted b then (Fail NotFound, s)
      else if negb (canBeBorrowed b) then (Fail Unavailable, s)
      else
        match find (fun t => Nat.eqb (t_user t) uid && Nat.eqb (t_book t) bid
                             && is_loan (status t)) (txs s) with
        | Some _ => (Fail DuplicateLoan, s)
        | None =>
          let t0 := new_tx (new_id (txs s)) uid bid T_borrow S_active now None None
                      (condition b) in
          if negb (tx_validate t0) then (Fail ServerError, s) else
          let t := tx_pre_save now true t0 in
          let s1 := with_txs (txs s ++ [t]) s in
          let s2 := save_book (book_pre_save
                                 (set_availableCopies (availableCopies b - 1) b)) s1 in
          let s3 := save_user (set_user_loans (currentBorrowedBooks u ++ [bid])
                                 (totalBooksBorrowed u + 1) (totalBooksRead u) u) s2 in
          (Ok, s3)
        end
    end
  end.

(** The user's update at a return: [currentBorrowedBooks.filter(...)] and
    [totalBooksRead += 1]. *)
Definition user_after_return (bid : nat) (u : User) : User :=
  set_user_loans (filter (fun x => negb (Nat.eqb x bid)) (currentBorrowedBooks u))
    (totalBooksBorrowed u) (totalBooksRead u + 1) u.

(** [POST /api/books/:id/return] (routes/books.js).  When [Book.findById]
    finds nothing, [book.availableCopies] throws after the transaction was
    saved: a 500 with that save kept. *)
Definition return_book (now : Z) (uid bid : nat) (cond : option Condition)
    (notes : string) (s : Store) : Outcome * Store :=
  match find_user uid s with
  | None => (Fail Unauthorized, s)
  | Some u =>
    match find (fun t => Nat.eqb (t_user t) uid && Nat.eqb (t_book t) bid
                         && is_loan (status t)) (txs s) with
    | None => (Fail NotFound, s)
    | Some t =>
      match returnBook now cond notes t with
      | None => (Fail ServerError, s)
      | Some t' =>
        let s1 := save_tx t' s in
        match find_book bid s1 with
        | None => (Fail ServerError, s1)
        | Some b =>
          let s2 := save_book (book_pre_save
                                 (set_availableCopies (availableCopies b + 1) b)) s1 in
          (Ok, save_user (user_after_return bid u) s2)
        end
      end
    end
  end.

(** [POST /api/transactions/:id/return] (routes/transactions.js), the
    Return(transactionId) operation. *)
Definition return_tx (now : Z) (tid : nat) (cond : option Condition) (notes : string)
    (waiveFine : bool) (s : Store) : Outcome * Store :=
  match find_tx tid s with
  | None => (Fail NotFound, s)
  | Some t =>
    if negb (TxStatus_beq (status t) S_active) && negb (TxStatus_beq (status t) S_overdue)
    then (Fail NotActive, s)
    else
      match returnBook now cond notes t with
      | None => (Fail ServerError, s)
      | Some t1 =>
        let s1 := save_tx t1 s in
        let (t2, s2) :=
          if waiveFine && (0 <? fineAmount t1)
          then let t2 := tx_pre_save now false
                           (set_fine (fineAmount t1) F_waived t1) in
               (t2, save_tx t2 s1)
          else (t1, s1) in
        let s3 := match find_book (t_book t2) s2 with
                  | Some b => save_book (book_pre_save
                                (set_availableCopies (availableCopies b + 1) b)) s2
                  | None => s2
                  end in
        let s4 := match find_user (t_user t2) s3 with
                  | Some u => save_user (user_after_return (t_book t2) u) s3
                  | None => s3
                  end in
        (Ok, s4)
      end
  end.

(** [POST /api/books/:id/renew] (routes/books.js): [transaction.renew()]
    with its default of 14 days. *)
Definition renew_book (now : Z) (uid bid : nat) (s : Store) : Outcome * Store :=
  match find_user uid s with
  | None => (Fail Unauthorized, s)
  | Some _ =>
    match find (fun t => Nat.eqb (t_user t) uid && Nat.eqb (t_book t) bid
                         && is_loan (status t)) (txs s) with
    | None => (Fail NotFound, s)
    | Some t =>
      if negb (canRenew now t) then (Fail NotRenewable, s)
      else match renew now 14 t with
           | None => (Fail ServerError, s)
           | Some t' => (Ok, save_tx t' s)
           end
    end
  end.

(** [POST /api/transactions/:id/renew] (routes/transactions.js):
    [days = req.body.days || 14]. *)
Definition renew_tx (now : Z) (uid tid : nat) (days : option Z) (s : Store)
    : Outcome * Store :=
  match find_user uid s with
  | None => (Fail Unauthorized, s)
  | Some u =>
    match find_tx tid s with
    | None => (Fail NotFound, s)
    | Some t =>
      if negb (is_staff (role u)) && negb (Nat.eqb (t_user t) uid) then (Fail Forbidden, s)
      else if negb (canRenew now t) then (Fail NotRenewable, s)
      else
        let d := match days with Some d => if d =? 0 then 14 else d | None => 14 end in
        match renew now d t with
        | None => (Fail ServerError, s)
        | Some t' => (Ok, save_tx t' s)
        end
    end
  end.

(** [POST /api/books/:id/reserve] (routes/books.js). *)
Definition reserve (now : Z) (uid bid : nat) (s : Store) : Outcome * Store :=
  match find_user uid s with
  | None => (Fail Unauthorized, s)
  | Some _ =>
    match find_book bid s with
    | None => (Fail NotFound, s)
    | Some b =>
      if negb (b_isActive b) || isDeleted b then (Fail NotFound, s)
      else
        match find (fun t => Nat.eqb (t_user t) uid && Nat.eqb (t_book t) bid
                             && (is_loan (status t) || TxStatus_beq (status t) S_pending))
                   (txs s) with
        | Some _ => (Fail DuplicateLoan, s)
        | None =>
          let t := tx_pre_save now true
                     (new_tx (new_id (txs s)) uid bid T_reserve S_pending now
                        (Some now) (Some (now + 7 * DAY)) C_good) in
          (Ok, with_txs (txs s ++ [t]) s)
        end
    end
  end.

(** [POST /api/books/:id/cancel-reservation] (routes/books.js). *)
Definition cancel_reservation (now : Z) (uid bid : nat) (s : Store) : Outcome * Store :=
  match find_user uid s with
  | None => (Fail Unauthorized, s)
  | Some _ =>
    match find (fun t => Nat.eqb (t_user t) uid && Nat.eqb (t_book t) bid
                         && TxType_beq (t_type t) T_reserve
                         && TxStatus_beq (status t) S_pending) (txs s) with
    | None => (Fail NotFound, s)
    | Some t => (Ok, save_tx (tx_pre_save now false (set_status S_cancelled t)) s)
    end
  end.

(** The lifecycle operations, and their sequential application. *)
Inductive Op :=
  | OpBorrow (uid bid : nat)
  | OpReturnBook (uid bid : nat) (cond : option Condition) (notes : string)
  | OpReturnTx (tid : nat) (cond : option Condition) (notes : string) (waive : bool)
  | OpRenewBook (uid bid : nat)
  | OpRenewTx (uid tid : nat) (days : option Z)
  | OpReserve (uid bid : nat)
  | OpCancelReservation (uid bid : nat).

Definition run_op (now : Z) (o : Op) (s : Store) : Outcome * Store :=
  match o with
  | OpBorrow uid bid => borrow now uid bid s
  | OpReturnBook uid bid c n => return_book now uid bid c n s
  | OpReturnTx tid c n w => return_tx now tid c n w s
  | OpRenewBook uid bid => renew_book now uid bid s
  | OpRenewTx uid tid d => renew_tx now uid tid d s
  | OpReserve uid bid => reserve now uid bid s
  | OpCancelReservation uid bid => cancel_reservation now uid bid s
  end.

(** A run: each request at its own time. *)
Fixpoint run_ops (ops : list (Z * Op)) (s : Store) : Store :=
  match ops with
  | [] => s
  | (now, o) :: rest => run_ops rest (snd (run_op now o s))
  end.

(** ** Other writes to a Book *)

(** [Book.findByIdAndUpdate(id, update)]: an update query.  It writes the
    fields of the update and runs no document middleware, so [pre('save')]
    does not recompute [isAvailable]. *)
Definition findByIdAndUpdate_book (id : nat) (f : Book -> Book) (s : Store) : Store :=
  with_books (map (fun x => if Nat.eqb (b_id x) id then f x else x) (books s)) s.

(** The body of [PUT /api/books/:id], on the fields of [Book]: [None] is a
    field the body does not carry.  The fields the model's [Book] leaves out
    (title, author, ...) are not modelled; an enum field holds one of the
    schema's values by its type. *)
Record BookBody := mkBookBody {
  bu_totalCopies : option Z;
  bu_availableCopies : option Z;
  bu_isAvailable : option bool;
  bu_isActive : option bool;
  bu_isDeleted : option bool;
  bu_condition : option Condition;
  bu_format : option Format;
  bu_averageRating : option Q;
  bu_totalRatings : option Z;
  bu_totalReviews : option Z
}.

(** A body with the one field [totalCopies], or the one field [availableCopies],
    or the one field [isAvailable]. *)
Definition body_total (tc : Z) : BookBody :=
  mkBookBody (Some tc) None None None None None None None None None.

Definition body_available (ac : Z) : BookBody :=
  mkBookBody None (Some ac) None None None None None None None None.

Definition body_isAvailable (v : bool) : BookBody :=
  mkBookBody None None (Some v) None None None None None None None.

(** [req.body.availableCopies = ...]. *)
Definition set_body_availableCopies (ac : Z) (u : BookBody) : BookBody :=
  mkBookBody (bu_totalCopies u) (Some ac) (bu_isAvailable u) (bu_isActive u)
    (bu_isDeleted u) (bu_condition u) (bu_format u) (bu_averageRating u)
    (bu_totalRatings u) (bu_totalReviews u).

Definition upd {A} (o : option A) (x : A) : A :=
  match o with Some v => v | None => x end.

(** The update [findByIdAndUpdate] writes: every field the body carries. *)
Definition apply_update (u : BookBody) (x : Book) : Book :=
  mkBook (b_id x) (upd (bu_totalCopies u) (totalCopies x))
    (upd (bu_availableCopies u) (availableCopies x)) (upd (bu_isAvailable u) (isAvailable x))
    (upd (bu_isActive u) (b_isActive x)) (upd (bu_isDeleted u) (isDeleted x))
    (upd (bu_condition u) (condition x)) (upd (bu_format u) (format x))
    (upd (bu_averageRating u) (averageRating x)) (upd (bu_totalRatings u) (totalRatings x))
    (upd (bu_totalReviews u) (totalReviews x)).

Definition opt_ok {A} (p : A -> bool) (o : option A) : bool :=
  match o with Some v => p v | None => true end.

(** [runValidators: true]: the validators of the updated paths, [totalCopies]
    min 1, [availableCopies] min 0, [averageRating] min 0 and max 5. *)
Definition update_valid (u : BookBody) : bool :=
  opt_ok (fun tc => 1 <=? tc) (bu_totalCopies u) &&
  opt_ok (fun ac => 0 <=? ac) (bu_availableCopies u) &&
  opt_ok (fun r => Qle_bool 0 r && Qle_bool r 5) (bu_averageRating u).

(** [PUT /api/books/:id] (routes/books.js).  When [totalCopies] is given and
    differs from the stored one, the handler sets [availableCopies] in the
    body; [Book.findByIdAndUpdate(id, req.body, { runValidators: true })]
    then writes the body, and a failed validator is a 500 with nothing
    written. *)
Definition update_book (bid : nat) (body : BookBody) (s : Store) : Outcome * Store :=
  match find_book bid s with
  | None => (Fail NotFound, s)
  | Some b =>
    if negb (b_isActive b) || isDeleted b then (Fail NotFound, s)
    else
      let body' :=
        match bu_totalCopies body with
        | Some tc =>
          if negb (tc =? 0) && negb (tc =? totalCopies b)
          then set_body_availableCopies
                 (Z.max 0 (availableCopies b + (tc - totalCopies b))) body
          else body
        | None => body
        end in
      if negb (update_valid body') then (Fail ServerError, s)
      else (Ok, findByIdAndUpdate_book bid (apply_update body') s)
  end.

(** ** Rating aggregation (models/Review.js, routes/reviews.js) *)

(** [Math.round(x)] on a rational: [Math.floor(x + 0.5)]. *)
Definition js_round (x : Q) : Z := Qfloor (x + (1 # 2))%Q.

(** static [updateBookRatings(bookId)], in exact rational arithmetic. *)
Definition updateBookRatings (bid : nat) (s : Store) : Store :=
  let published := filter (fun r => Nat.eqb (r_book r) bid
                                     && ReviewStatus_beq (r_status r) RS_published)
                          (reviews s) in
  match published with
  | [] => s
  | _ =>
    let n := Z.of_nat (List.length published) in
    let totalRating := fold_left (fun sum r => sum + rating r) published 0 in
    let avg := (inject_Z totalRating / inject_Z n)%Q in
    findByIdAndUpdate_book bid
      (fun x => mkBook (b_id x) (totalCopies x) (availableCopies x) (isAvailable x)
                  (b_isActive x) (isDeleted x) (condition x) (format x)
                  (inject_Z (js_round (avg * 10)) / 10)%Q n n) s
  end.

(** [DELETE /api/reviews/:id]: a soft delete, then the recomputation. *)
Definition delete_review (uid rid : nat) (s : Store) : Outcome * Store :=
  match find_user uid s with
  | None => (Fail Unauthorized, s)
  | Some u =>
    match find_review rid s with
    | None => (Fail NotFound, s)
    | Some r =>
      if negb (match role u with R_admin => true | _ => false end)
         && negb (Nat.eqb (r_user r) uid)
      then (Fail Forbidden, s)
      else
        let s1 := save_review (mkReview (r_id r) (r_user r) (r_book r) (rating r)
                                 RS_removed) s in
        (Ok, updateBookRatings (r_book r) s1)
    end
  end.

(** ** Sample documents *)

(** A loan taken at time 0 with the given due date and status. *)
Definition sample_loan (st : TxStatus) (due : Z) : Transaction :=
  mkTx 1 1 1 T_borrow st 0 (Some due) None None 0 3 None None None 0 F_none C_good
    None EmptyString false.

(** A Book as [POST /api/books] saves it: [availableCopies = totalCopies]. *)
Definition fresh_book (id : nat) (copies : Z) (fmt : Format) : Book :=
  book_pre_save (mkBook id copies copies true true false C_new fmt 0 0 0).

Definition sample_user (id : nat) (m : Membership) : User :=
  mkUser id R_member m [] 0 0.

Definition published_of (bid : nat) (s : Store) : list Review :=
  filter (fun r => Nat.eqb (r_book r) bid && ReviewStatus_beq (r_status r) RS_published)
    (reviews s).

(** Transactions of a user holding a copy. *)
Definition loans_of_user (uid : nat) (s : Store) : nat :=
  List.length (filter (fun t => Nat.eqb (t_user t) uid && is_loan (status t)) (txs s)).

(** The fine and fine status [returnBook] leaves on a loan due at time 0 and
    returned [days] days later. *)
Definition late_return_fine (days : Z) (st : TxStatus) : option (Z * FineStatus) :=
  option_map (fun t => (fineAmount t, fineStatus t))
    (returnBook (days * DAY) None EmptyString (sample_loan st 0)).

(** The fine the spec gives for a return [days] days late, in cents. *)
Definition spec_fine (days : Z) : Z := Z.min (days * 50) 2500.

(** ** The Book invariant of the lending lifecycle *)

Definition ind_loan (bid : nat) (t : Transaction) : nat :=
  if Nat.eqb (t_book t) bid && is_loan (status t) then 1 else 0.

Definition count_loans (bid : nat) (l : list Transaction) : nat :=
  List.length (filter (fun t => Nat.eqb (t_book t) bid && is_loan (status t)) l).

Definition book_ok (l : list Transaction) (b : Book) : Prop :=
  0 <= availableCopies b <= totalCopies b /\
  totalCopies b - availableCopies b = Z.of_nat (count_loans (b_id b) l).

(** Transaction ids are distinct (ObjectIds), and every Book satisfies the
    copy-count invariant. *)
Definition Inv (s : Store) : Prop :=
  NoDup (map t_id (txs s)) /\ Forall (book_ok (txs s)) (books s).

(** ** The rest of the lending backend *)

(** A reply of the handlers below: [res.json({ success: true, ... })], or an
    early [return res.status(code).json({ success: false, message })]. *)
Inductive Reply := Done | Refused (code : Z) (message : string).

(** *** Express routing

    A router tries its routes in registration order; the first route whose
    method and path pattern match handles the request, and no handler of
    these routers calls [next()] to hand the request on.  A pattern is a list
    of segments: a literal segment matches case-insensitively (Express's
    default), a parameter [:name] matches any non-empty segment.  A request
    path is the list of its segments: [/trending] is ["trending"], [/] is
    the empty list. *)

Inductive Method := Get | Post | Put | Delete.
Scheme Equality for Method.

Inductive PathSeg := Lit (s : string) | Param (name : string).

Definition lower_ascii (c : Ascii.ascii) : Ascii.ascii :=
  let n := Ascii.nat_of_ascii c in
  if (65 <=? n)%nat && (n <=? 90)%nat then Ascii.ascii_of_nat (n + 32) else c.

Fixpoint lower (s : string) : string :=
  match s with
  | EmptyString => EmptyString
  | String c s' => String (lower_ascii c) (lower s')
  end.

Definition seg_matches (p : PathSeg) (x : string) : bool :=
  match p with
  | Lit l => String.eqb (lower l) (lower x)
  | Param _ => negb (String.eqb x EmptyString)
  end.

Fixpoint path_matches (ps : list PathSeg) (xs : list string) : bool :=
  match ps, xs with
  | [], [] => true
  | p :: ps', x :: xs' => seg_matches p x && path_matches ps' xs'
  | _, _ => false
  end.

(** The handler a router gives a request, [None] for a 404 of Express. *)
Definition dispatch {H : Type} (table : list (Method * list PathSeg * H)) (m : Method)
    (xs : list string) : option H :=
  option_map snd
    (find (fun r => Method_beq (fst (fst r)) m && path_matches (snd (fst r)) xs) table).

(** The routes of routes/books.js, in registration order. *)
Inductive BooksRoute :=
  | BooksList | BookGet | BookCreate | BookUpdate | BookDelete | BookBorrow
  | BookReturn | BookRenew | BookReserve | BookCancelReservation
  | BooksTrending | BooksPopular.

Definition books_routes : list (Method * list PathSeg * BooksRoute) :=
  [(Get, [], BooksList);
   (Get, [Param "id"], BookGet);
   (Post, [], BookCreate);
   (Put, [Param "id"], BookUpdate);
   (Delete, [Param "id"], BookDelete);
   (Post, [Param "id"; Lit "borrow"], BookBorrow);
   (Post, [Param "id"; Lit "return"], BookReturn);
   (Post, [Param "id"; Lit "renew"], BookRenew);
   (Post, [Param "id"; Lit "reserve"], BookReserve);
   (Post, [Param "id"; Lit "cancel-reservation"], BookCancelReservation);
   (Get, [Lit "trending"], BooksTrending);
   (Get, [Lit "popular"], BooksPopular)]%string.

(** The routes of routes/transactions.js, in registration order. *)
Inductive TxRoute :=
  | TxList | TxGet | TxRenew | TxReturn | TxOverdue | TxDueSoon | TxFine.

Definition transactions_routes : list (Method * list PathSeg * TxRoute) :=
  [(Get, [], TxList);
   (Get, [Param "id"], TxGet);
   (Post, [Param "id"; Lit "renew"], TxRenew);
   (Post, [Param "id"; Lit "return"], TxReturn);
   (Get, [Lit "overdue"], TxOverdue);
   (Get, [Lit "due-soon"], TxDueSoon);
   (Post, [Param "id"; Lit "fine"], TxFine)]%string.

(** The routes of routes/reviews.js, in registration order. *)
Inductive ReviewsRoute :=
  | ReviewsList | ReviewGet | ReviewCreate | ReviewUpdate | ReviewDelete
  | ReviewVote | ReviewComment | ReviewLike | ReviewUnlike | ReviewReport | ReviewsTop.

Definition reviews_routes : list (Method * list PathSeg * ReviewsRoute) :=
  [(Get, [], ReviewsList);
   (Get, [Param "id"], ReviewGet);
   (Post, [], ReviewCreate);
   (Put, [Param "id"], ReviewUpdate);
   (Delete, [Param "id"], ReviewDelete);
   (Post, [Param "id"; Lit "vote"], ReviewVote);
   (Post, [Param "id"; Lit "comment"], ReviewComment);
   (Post, [Param "id"; Lit "like"], ReviewLike);
   (Post, [Param "id"; Lit "unlike"], ReviewUnlike);
   (Post, [Param "id"; Lit "report"], ReviewReport);
   (Get, [Lit "top"], ReviewsTop)]%string.

(** *** Pagination of the listing routes

    [GET /api/books], [GET /api/transactions] and [GET /api/reviews] page the
    sorted query result [l] with [.skip((page - 1) * limit).limit(limit)] and
    report [totalPages: Math.ceil(total / limit)] and
    [hasNext: page < Math.ceil(total / limit)], where [total] is
    [countDocuments(query)], the length of [l]. *)
Definition page_of {A : Type} (page limit : Z) (l : list A) : list A :=
  firstn (Z.to_nat limit) (skipn (Z.to_nat ((page - 1) * limit)) l).

Definition totalPages (total limit : Z) : Z := - ((- total) / limit).

Definition hasNext (page total limit : Z) : bool := page <? totalPages total limit.

(** *** More of the Transaction model and routes *)

(** virtual [daysUntilDue]: [null] without a due date or once 'completed'. *)
Definition daysUntilDue (now : Z) (t : Transaction) : option Z :=
  match dueDate t with
  | None => None
  | Some d => if TxStatus_beq (status t) S_completed then None else Some (ceil_days (d - now))
  end.

(** static [findDueSoon(days = 3)]:
    [{ status: 'active', dueDate: { $lte: futureDate, $gte: new Date() } }]. *)
Definition findDueSoon (now days : Z) (txs : list Transaction) : list Transaction :=
  let futureDate := now + days * DAY in
  filter (fun t => TxStatus_beq (status t) S_active &&
                   match dueDate t with
                   | Some d => (d <=? futureDate) && (now <=? d)
                   | None => false
                   end) txs.

(** [POST /api/transactions/:id/fine] (routes/transactions.js), for a body
    with [amount] and [status]; the [reason] and the paid date it records are
    not modelled, and the roles are checked by [authorize] before it. *)
Definition fine_update (now : Z) (tid : nat) (amount : option Z)
    (fstatus : option FineStatus) (s : Store) : Reply * Store :=
  match find_tx tid s with
  | None => (Refused 404 "Transaction not found", s)
  | Some t =>
    let t1 := match amount with Some a => set_fine a (fineStatus t) t | None => t end in
    let t2 := match fstatus with Some f => set_fine (fineAmount t1) f t1 | None => t1 end in
    (Done, save_tx (tx_pre_save now false t2) s)
  end.

(** *** More of the Book model and routes *)

Inductive AvailabilityStatus := AS_unavailable | AS_out_of_stock | AS_low_stock | AS_available.

Section Availability.

(** [this.availableCopies < this.totalCopies * 0.2], a comparison in IEEE
    double arithmetic. *)
Variable below_fifth : Z -> Z -> bool.

(** virtual [availabilityStatus]. *)
Definition availabilityStatus (b : Book) : AvailabilityStatus :=
  if negb (isAvailable b) || isDeleted b then AS_unavailable
  else if availableCopies b =? 0 then AS_out_of_stock
  else if below_fifth (availableCopies b) (totalCopies b) then AS_low_stock
  else AS_available.

End Availability.

(** [DELETE /api/books/:id] (routes/books.js): a soft delete through
    [book.save()], refused while a transaction of the book is active or
    overdue. *)
Definition delete_book (bid : nat) (s : Store) : Reply * Store :=
  match find_book bid s with
  | None => (Refused 404 "Book not found", s)
  | Some b =>
    if isDeleted b then (Refused 404 "Book not found", s)
    else if 0 <? Z.of_nat (count_loans bid (txs s))
    then (Refused 400 "Cannot delete book with active transactions", s)
    else (Done, save_book (book_pre_save
                  (mkBook (b_id b) (totalCopies b) (availableCopies b) (isAvailable b)
                     false true (condition b) (format b) (averageRating b)
                     (totalRatings b) (totalReviews b))) s)
  end.

(** *** Creating a review *)

Definition new_review_id (l : list Review) : nat :=
  S (fold_right Nat.max 0%nat (map r_id l)).

(** [POST /api/reviews] (routes/reviews.js).  The body's [user] and [status]
    are part of [...otherData] and, when given, override the requester and the
    default 'published'.  The [pre('save')] hook of a new published review
    runs [updateBookRatings] before the review is inserted; the handler runs
    it again afterwards. *)
Definition create_review (uid book tid : nat) (rating_ : Z) (body_user : option nat)
    (body_status : option ReviewStatus) (s : Store) : Reply * Store :=
  match find_user uid s with
  | None => (Refused 401 "Invalid token - user not found", s)
  | Some _ =>
    match find (fun t => Nat.eqb (t_id t) tid && Nat.eqb (t_user t) uid
                         && TxStatus_beq (status t) S_completed) (txs s) with
    | None => (Refused 400 "Transaction not found or not completed", s)
    | Some _ =>
      match find (fun r => Nat.eqb (r_user r) uid && Nat.eqb (r_book r) book
                           && negb (ReviewStatus_beq (r_status r) RS_removed)) (reviews s) with
      | Some _ => (Refused 400 "You have already reviewed this book", s)
      | None =>
        let r := mkReview (new_review_id (reviews s))
                   (match body_user with Some v => v | None => uid end) book rating_
                   (match body_status with Some st => st | None => RS_published end) in
        let s1 := if ReviewStatus_beq (r_status r) RS_published
                  then updateBookRatings book s else s in
        let s2 := with_reviews (reviews s1 ++ [r]) s1 in
        (Done, updateBookRatings book s2)
      end
    end
  end.

(** The mean of the ratings of a list of reviews, as [updateBookRatings]
    computes it. *)
Definition mean_rating (l : list Review) : Q :=
  let n := Z.of_nat (List.length l) in
  let totalRating := fold_left (fun sum r => sum + rating r) l 0 in
  (inject_Z totalRating / inject_Z n)%Q.

(** *** Feedback on a review (models/Review.js, routes/reviews.js)

    The fields of a Review document its feedback methods read and write:
    [status], [user], the two vote counters, [voters] as (user, helpful)
    pairs, [likes], and [reportedBy] as (user, reason) pairs; the dates of
    votes and reports are not modelled. *)
Inductive ReportReason := inappropriate | spam | offensive | irrelevant | fake | other.

Record ReviewFeedback := mkFeedback {
  f_status : ReviewStatus;
  f_user : nat;
  helpfulVotes : Z;
  notHelpfulVotes : Z;
  voters : list (nat * bool);
  likes : list nat;
  reportedBy : list (nat * ReportReason)
}.

(** [existingVote.helpful = helpful] on the first voter entry of [uid]. *)
Fixpoint set_vote (uid : nat) (h : bool) (l : list (nat * bool)) : list (nat * bool) :=
  match l with
  | [] => []
  | (u, h') :: l' => if Nat.eqb u uid then (u, h) :: l' else (u, h') :: set_vote uid h l'
  end.

(** A scalar JSON value of a request body. *)
Inductive JsonScalar := JBool (b : bool) | JStr (str : string) | JNum (n : Z).

(** express-validator's [isBoolean()]: the value as a string is one of
    'true', 'false', '1' or '0'. *)
Definition isBoolean (v : JsonScalar) : bool :=
  match v with
  | JBool _ => true
  | JStr x => String.eqb x "true" || String.eqb x "false" || String.eqb x "1"
              || String.eqb x "0"
  | JNum n => (n =? 0) || (n =? 1)
  end.

(** JavaScript truthiness, as in [if (helpful)]. *)
Definition truthy (v : JsonScalar) : bool :=
  match v with
  | JBool b => b
  | JStr x => negb (String.eqb x EmptyString)
  | JNum n => negb (n =? 0)
  end.

(** Mongoose's cast to Boolean, of a value written to [voters.helpful];
    [None] is a CastError. *)
Definition cast_Boolean (v : JsonScalar) : option bool :=
  match v with
  | JBool b => Some b
  | JStr x => if String.eqb x "true" || String.eqb x "1" || String.eqb x "yes" then Some true
              else if String.eqb x "false" || String.eqb x "0" || String.eqb x "no"
              then Some false else None
  | JNum n => if n =? 1 then Some true else if n =? 0 then Some false else None
  end.

(** [existingVote.helpful !== helpful]: the stored Boolean against the
    value of the request. *)
Definition strict_neq (stored : bool) (v : JsonScalar) : bool :=
  match v with
  | JBool b => negb (Bool.eqb stored b)
  | _ => true
  end.

(** method [voteHelpfulness(userId, helpful)], with the [save] it returns;
    [None] is a save that fails on the cast of [helpful]. *)
Definition voteHelpfulness (uid : nat) (v : JsonScalar) (d : ReviewFeedback)
    : option ReviewFeedback :=
  match find (fun x => Nat.eqb (fst x) uid) (voters d) with
  | Some (_, old) =>
    if negb (strict_neq old v) then Some d
    else match cast_Boolean v with
         | None => None
         | Some c =>
           Some (mkFeedback (f_status d) (f_user d)
                   (if truthy v then helpfulVotes d + 1 else helpfulVotes d - 1)
                   (if truthy v then notHelpfulVotes d - 1 else notHelpfulVotes d + 1)
                   (set_vote uid c (voters d)) (likes d) (reportedBy d))
         end
  | None =>
    match cast_Boolean v with
    | None => None
    | Some c =>
      Some (mkFeedback (f_status d) (f_user d)
              (if truthy v then helpfulVotes d + 1 else helpfulVotes d)
              (if truthy v then notHelpfulVotes d else notHelpfulVotes d + 1)
              (voters d ++ [(uid, c)]) (likes d) (reportedBy d))
    end
  end.

Definition with_likes (l : list nat) (d : ReviewFeedback) : ReviewFeedback :=
  mkFeedback (f_status d) (f_user d) (helpfulVotes d) (notHelpfulVotes d) (voters d) l
    (reportedBy d).

(** method [like(userId)]: [if (!this.likes.includes(userId)) this.likes.push(userId)]. *)
Definition like (uid : nat) (d : ReviewFeedback) : ReviewFeedback :=
  if existsb (Nat.eqb uid) (likes d) then d else with_likes (likes d ++ [uid]) d.

(** method [unlike(userId)]. *)
Definition unlike (uid : nat) (d : ReviewFeedback) : ReviewFeedback :=
  with_likes (filter (fun x => negb (Nat.eqb x uid)) (likes d)) d.

(** method [report(userId, reason)]. *)
Definition report (uid : nat) (reason : ReportReason) (d : ReviewFeedback) : ReviewFeedback :=
  mkFeedback (f_status d) (f_user d) (helpfulVotes d) (notHelpfulVotes d) (voters d)
    (likes d) (reportedBy d ++ [(uid, reason)]).

(** [Review.findById(...)] followed by [if (!review || review.status !== 'published')]. *)
Definition published_feedback (r : option ReviewFeedback) : option ReviewFeedback :=
  match r with
  | Some d => if ReviewStatus_beq (f_status d) RS_published then Some d else None
  | None => None
  end.

(** [POST /api/reviews/:id/vote], with [req.body.helpful] the value [v], on
    the review [r] found by id. *)
Definition vote_route (uid : nat) (v : JsonScalar) (r : option ReviewFeedback)
    : Reply * option ReviewFeedback :=
  if negb (isBoolean v) then (Refused 400 "Validation failed", r) else
  match published_feedback r with
  | None => (Refused 404 "Review not found", r)
  | Some d =>
    if Nat.eqb (f_user d) uid then (Refused 400 "You cannot vote on your own review", r)
    else match voteHelpfulness uid v d with
         | None => (Refused 500 "Failed to record vote", r)
         | Some d' => (Done, Some d')
         end
  end.

(** [POST /api/reviews/:id/report], on the review [r] found by id. *)
Definition report_route (uid : nat) (reason : ReportReason) (r : option ReviewFeedback)
    : Reply * option ReviewFeedback :=
  match published_feedback r with
  | None => (Refused 404 "Review not found", r)
  | Some d =>
    if existsb (fun p => Nat.eqb (fst p) uid) (reportedBy d)
    then (Refused 400 "You have already reported this review", r)
    else (Done, Some (report uid reason d))
  end.

(** The vote counters agree with the voter entries, one entry per user. *)
Definition count_votes (h : bool) (l : list (nat * bool)) : Z :=
  Z.of_nat (List.length (filter (fun v => Bool.eqb (snd v) h) l)).

Definition votes_ok (d : ReviewFeedback) : Prop :=
  helpfulVotes d = count_votes true (voters d) /\
  notHelpfulVotes d = count_votes false (voters d) /\
  NoDup (map fst (voters d)).

(** ** Sample stores *)

(** An active loan of book [bid] to user [uid], due at [due]. *)
Definition loan_tx (id uid bid : nat) (due : Z) : Transaction :=
  mkTx id uid bid T_borrow S_active 0 (Some due) None None 0 3 None None None 0 F_none
    C_good None EmptyString false.

(** A basic member holding books 1, 2 and 3, one active loan each, with no
    copy of these books left; book 4 has its one copy. *)
Definition limit_store : Store :=
  mkStore [book_pre_save (set_availableCopies 0 (fresh_book 1 1 paperback));
           book_pre_save (set_availableCopies 0 (fresh_book 2 1 paperback));
           book_pre_save (set_availableCopies 0 (fresh_book 3 1 paperback));
           fresh_book 4 1 paperback]
    [mkUser 1 R_member M_basic [1; 2; 3]%nat 3 0]
    [loan_tx 1 1 1 (21 * DAY); loan_tx 2 1 2 (21 * DAY); loan_tx 3 1 3 (21 * DAY)] [].

Definition renew_store : Store :=
  mkStore [set_availableCopies 0 (fresh_book 1 1 paperback)] [sample_user 1 M_basic]
    [sample_loan S_active (10 * DAY)] [].

Definition renew_state (t : option Transaction) : option (TxType * TxStatus * Z * option Z) :=
  option_map (fun t => (t_type t, status t, renewalCount t, dueDate t)) t.

(** Book 1 with one published review of rating 4, as [POST /api/reviews]
    leaves it after [updateBookRatings]. *)
Definition review_store : Store :=
  updateBookRatings 1
    (mkStore [fresh_book 1 1 paperback] [sample_user 1 M_basic] []
       [mkReview 1 1 1 4 RS_published]).

Definition rating_fields (b : option Book) : option (bool * Z * Z) :=
  option_map (fun b => (Qeq_bool (averageRating b) 4, totalRatings b, totalReviews b)) b.

(** Book 1 as [POST /api/books] saves it, with one copy, and two members. *)
Definition shelf_store : Store :=
  mkStore [fresh_book 1 1 paperback] [sample_user 1 M_basic; sample_user 2 M_basic] [] [].

Definition borrow_view (b : option Book) : option (bool * Z * bool * bool * Condition * bool) :=
  option_map (fun b => (b_isActive b, availableCopies b, isDeleted b, isAvailable b,
                        condition b, canBeBorrowed b)) b.

(** Book 1 lent to user 1 and returned a day later. *)
Definition returned_store : Store :=
  snd (return_tx DAY 1 None EmptyString false renew_store).

(** Two books, two members, one of them holding a copy of book 1, and a run
    of every kind of request. *)
Definition lifecycle_start : Store :=
  mkStore [book_pre_save (set_availableCopies 1 (fresh_book 1 2 paperback));
           fresh_book 2 1 ebook]
    [mkUser 1 R_member M_basic [1%nat] 1 0; sample_user 2 M_student]
    [loan_tx 1 1 1 (21 * DAY)] [].

Definition lifecycle_run : list (Z * Op) :=
  [(0, OpBorrow 2 1); (0, OpReserve 1 2); (DAY, OpRenewBook 1 1);
   (DAY, OpCancelReservation 1 2); (2 * DAY, OpBorrow 1 2);
   (30 * DAY, OpReturnTx 1 None EmptyString true);
   (31 * DAY, OpReturnBook 2 2 None EmptyString)].

(** ** Concrete runs *)

Example daysOverdue_10 :
  daysOverdue (10 * DAY) (sample_loan S_overdue 0) = 10.
Proof. reflexivity. Qed.

Example daysOverdue_part_day :
  daysOverdue (DAY + 1) (sample_loan S_overdue 0) = 2.
Proof. reflexivity. Qed.

Example spec_fine_samples : spec_fine 10 = 500 /\ spec_fine 60 = 2500.
Proof. split; reflexivity. Qed.

Example canRenew_fresh : canRenew 0 (sample_loan S_active DAY) = true.
Proof. reflexivity. Qed.

(** ** Fines at return *)

(** [calculateFine] reads [isOverdue], which needs status 'active', and
    [daysOverdue], which needs status 'overdue': on a loan not paid or waived
    the two never both hold, so the computed amount is 0. *)
Lemma calculateFine_zero (now : Z) (t : Transaction) :
  fineStatus t <> F_paid -> fineStatus t <> F_waived ->
  fineAmount (calculateFine now t) = 0 /\ fineStatus (calculateFine now t) = F_none.
Proof.
  intros Hp Hw. unfold calculateFine.
  destruct (fineStatus t) eqn:Ef; try congruence; simpl;
  destruct (isOverdue now t) eqn:Eo; simpl; try (split; reflexivity);
  unfold isOverdue, daysOverdue in *;
  destruct (dueDate t); try discriminate;
  destruct (status t); simpl in *; try (rewrite andb_false_r in Eo; discriminate);
  split; reflexivity.
Qed.

(** C1 (code defect).  [returnBook] sets the status to 'completed' before it
    calls [calculateFine], whose [isOverdue] then is false: a return 10 days
    late (status 'active' or 'overdue') and a return 60 days late both end with
    [fineAmount = 0] and [fineStatus = 'none'], where the spec's formula gives
    5.00 and 25.00. *)
Theorem returnBook_late_fine_is_zero :
  late_return_fine 10 S_active = Some (0, F_none) /\
  late_return_fine 10 S_overdue = Some (0, F_none) /\
  late_return_fine 60 S_active = Some (0, F_none) /\
  late_return_fine 60 S_overdue = Some (0, F_none) /\
  spec_fine 10 = 500 /\ spec_fine 60 = 2500.
Proof. repeat split. Qed.

(** ** Membership limits at Borrow *)

(** C3 (code defect).  [POST /:id/borrow] is mounted without
    [checkBorrowingLimits] and checks no limit itself: no Borrow ever fails
    with LimitExceeded.  A basic member holding 3 loans, whom
    [checkBorrowingLimits] would refuse, asking for a 4th book gets the 500 of
    the failed transaction save, not LimitExceeded. *)
Theorem borrow_ignores_membership_limit :
  (forall now uid bid s, fst (borrow now uid bid s) <> Fail LimitExceeded) /\
  loans_of_user 1 limit_store = 3%nat /\
  membershipLimit M_basic = 3 /\
  option_map checkBorrowingLimits (find_user 1 limit_store) = Some false /\
  borrow 0 1 4 limit_store = (Fail ServerError, limit_store).
Proof.
  split.
  - intros now uid bid s. unfold borrow.
    destruct (find_user uid s); [|discriminate].
    destruct (find_book bid s) as [b|]; [|discriminate].
    destruct (negb (b_isActive b) || isDeleted b); [discriminate|].
    destruct (negb (canBeBorrowed b)); [discriminate|].
    destruct (find _ (txs s)); discriminate.
  - vm_compute. repeat split.
Qed.

(** ** Renewals *)

(** C4 (code defect).  [renew] sets [type = 'renew'] while [canRenew] asks for
    [type === 'borrow']: after one renewal the loan is active, has
    [renewalCount = 1 < 3] and a due date in the future, and the next Renew
    fails with NotRenewable, through either route. *)
Theorem renew_refused_after_first :
  let s1 := snd (renew_tx 0 1 1 None renew_store) in
  let s1' := snd (renew_book 0 1 1 renew_store) in
  fst (renew_tx 0 1 1 None renew_store) = Ok /\
  renew_state (find_tx 1 s1) = Some (T_renew, S_active, 1, Some (14 * DAY)) /\
  fst (renew_tx DAY 1 1 None s1) = Fail NotRenewable /\
  fst (renew_book 0 1 1 renew_store) = Ok /\
  renew_state (find_tx 1 s1') = Some (T_renew, S_active, 1, Some (14 * DAY)) /\
  fst (renew_book DAY 1 1 s1') = Fail NotRenewable.
Proof. vm_compute. repeat split. Qed.

(** ** Overdue as a derived view *)

(** C7.  [isOverdue] is a function of the status and the due date only: it
    holds exactly for an 'active' transaction whose due date has passed;
    [findOverdue] selects exactly those transactions; and a transaction whose
    status is 'overdue' has [isOverdue] false. *)
Theorem overdue_is_derived_view (now : Z) (t : Transaction) (l : list Transaction) :
  isOverdue now t = TxStatus_beq (status t) S_active
                    && match dueDate t with Some d => d <? now | None => false end /\
  findOverdue now l = filter (isOverdue now) l /\
  isOverdue now (set_status S_overdue t) = false.
Proof.
  split; [|split].
  - unfold isOverdue. destruct (dueDate t); [apply andb_comm | now rewrite andb_false_r].
  - unfold findOverdue. apply filter_ext. intros x. unfold isOverdue.
    destruct (dueDate x); [apply andb_comm | apply andb_false_r].
  - unfold isOverdue, set_status. simpl. destruct (dueDate t); [apply andb_false_r | reflexivity].
Qed.

(** ** Rating aggregation *)

Example review_store_aggregate :
  rating_fields (find_book 1 review_store) = Some (true, 1, 1).
Proof. vm_compute. reflexivity. Qed.

(** C9 (code defect).  [updateBookRatings] returns early when no published
    review is left: after its owner deletes the book's last published review
    the book keeps [averageRating = 4], [totalRatings = 1] and
    [totalReviews = 1], although no published review remains. *)
Theorem delete_last_review_keeps_stale_rating :
  fst (delete_review 1 1 review_store) = Ok /\
  published_of 1 (snd (delete_review 1 1 review_store)) = [] /\
  rating_fields (find_book 1 (snd (delete_review 1 1 review_store))) = Some (true, 1, 1).
Proof. vm_compute. repeat split. Qed.

(** ** The availability flag *)

(** A save of a Book recomputes [isAvailable] from [availableCopies] and
    [isDeleted] and changes nothing else [canBeBorrowed] reads, so right after
    a save [canBeBorrowed] holds exactly when a copy is available, the book is
    not deleted and its condition is not 'damaged'. *)
Lemma book_save_canBeBorrowed (b : Book) :
  isAvailable (book_pre_save b) = (0 <? availableCopies b) && negb (isDeleted b) /\
  availableCopies (book_pre_save b) = availableCopies b /\
  isDeleted (book_pre_save b) = isDeleted b /\
  condition (book_pre_save b) = condition b /\
  canBeBorrowed (book_pre_save b)
  = (0 <? availableCopies b) && negb (isDeleted b)
    && negb (Condition_beq (condition b) C_damaged).
Proof.
  unfold canBeBorrowed, book_pre_save; simpl.
  repeat split.
  destruct (0 <? availableCopies b), (isDeleted b); reflexivity.
Qed.

(** C10 (code defect).  [PUT /api/books/:id] writes its body through
    [findByIdAndUpdate], which runs no save hook, so that persisted mutation
    does not recompute [isAvailable].  On book 1 as [POST /api/books] saves it
    (one copy, [isAvailable] true): the body [{availableCopies: 0}] is
    accepted and leaves [isAvailable] true with no copy; the body
    [{isAvailable: false}] is accepted and leaves the book with its free copy,
    neither deleted nor damaged, and [canBeBorrowed] false, so a member
    holding no loan is refused by Borrow with Unavailable. *)
Theorem put_book_leaves_isAvailable_stale :
  fst (update_book 1 (body_available 0) shelf_store) = Ok /\
  option_map (fun b => (availableCopies b, isDeleted b, isAvailable b))
    (find_book 1 (snd (update_book 1 (body_available 0) shelf_store)))
  = Some (0, false, true) /\
  fst (update_book 1 (body_isAvailable false) shelf_store) = Ok /\
  borrow_view (find_book 1 (snd (update_book 1 (body_isAvailable false) shelf_store)))
  = Some (true, 1, false, false, C_new, false) /\
  loans_of_user 2 (snd (update_book 1 (body_isAvailable false) shelf_store)) = 0%nat /\
  fst (borrow 0 2 1 (snd (update_book 1 (body_isAvailable false) shelf_store)))
  = Fail Unavailable.
Proof. vm_compute. repeat split. Qed.

(** ** Lookups after a save *)

Section Replace.
Context {A : Type} (key : A -> nat).

Lemma find_replace_same (x : A) (l : list A) :
  find (fun y => Nat.eqb (key y) (key x)) l <> None ->
  find (fun y => Nat.eqb (key y) (key x)) (replace_by_key key x l) = Some x.
Proof.
  unfold replace_by_key.
  induction l as [|y l IH]; simpl; intros H; [congruence|].
  destruct (Nat.eqb (key y) (key x)) eqn:E; simpl.
  - now rewrite Nat.eqb_refl.
  - rewrite E. now apply IH.
Qed.

Lemma find_replace_other (x : A) (k : nat) (l : list A) :
  key x <> k ->
  find (fun y => Nat.eqb (key y) k) (replace_by_key key x l)
  = find (fun y => Nat.eqb (key y) k) l.
Proof.
  intros Hk. unfold replace_by_key.
  induction l as [|y l IH]; simpl; [reflexivity|].
  destruct (Nat.eqb (key y) (key x)) eqn:E; simpl.
  - apply Nat.eqb_eq in E.
    destruct (Nat.eqb (key x) k) eqn:E1; [apply Nat.eqb_eq in E1; congruence|].
    destruct (Nat.eqb (key y) k) eqn:E2; [apply Nat.eqb_eq in E2; congruence|].
    exact IH.
  - destruct (Nat.eqb (key y) k); [reflexivity | exact IH].
Qed.

Lemma map_key_replace (x : A) (l : list A) :
  map key (replace_by_key key x l) = map key l.
Proof.
  unfold replace_by_key.
  induction l as [|y l IH]; simpl; [reflexivity|].
  destruct (Nat.eqb (key y) (key x)) eqn:E; simpl; rewrite IH; [|reflexivity].
  apply Nat.eqb_eq in E. now rewrite E.
Qed.
End Replace.

Lemma find_key_some {A} (key : A -> nat) (k : nat) (l : list A) (x : A) :
  find (fun y => Nat.eqb (key y) k) l = Some x -> In x l /\ key x = k.
Proof.
  intros H. apply find_some in H. destruct H as [H1 H2].
  split; [exact H1 | now apply Nat.eqb_eq].
Qed.

Lemma find_none_forall {A} (p : A -> bool) (l : list A) :
  (forall x, In x l -> p x = false) -> find p l = None.
Proof.
  induction l as [|y l IH]; simpl; intros H; [reflexivity|].
  rewrite (H y (or_introl eq_refl)). apply IH. intros x Hx. apply H. now right.
Qed.

(** ** Projections and lookups through the saves *)

Lemma find_book_save_same (b : Book) (s : Store) :
  find_book (b_id b) s <> None -> find_book (b_id b) (save_book b s) = Some b.
Proof. unfold find_book, save_book. simpl. apply find_replace_same. Qed.

Lemma find_user_save_same (u : User) (s : Store) :
  find_user (u_id u) s <> None -> find_user (u_id u) (save_user u s) = Some u.
Proof. unfold find_user, save_user. simpl. apply find_replace_same. Qed.

Lemma find_book_save_tx (k : nat) (t : Transaction) (s : Store) :
  find_book k (save_tx t s) = find_book k s.
Proof. reflexivity. Qed.

Lemma find_book_save_user (k : nat) (u : User) (s : Store) :
  find_book k (save_user u s) = find_book k s.
Proof. reflexivity. Qed.

Lemma find_book_with_txs (k : nat) (l : list Transaction) (s : Store) :
  find_book k (with_txs l s) = find_book k s.
Proof. reflexivity. Qed.

Lemma find_user_save_tx (k : nat) (t : Transaction) (s : Store) :
  find_user k (save_tx t s) = find_user k s.
Proof. reflexivity. Qed.

Lemma find_user_save_book (k : nat) (b : Book) (s : Store) :
  find_user k (save_book b s) = find_user k s.
Proof. reflexivity. Qed.

Lemma new_id_fresh (l : list Transaction) (x : Transaction) :
  In x l -> (t_id x < new_id l)%nat.
Proof.
  unfold new_id. induction l as [|y l IH]; simpl; [tauto|].
  intros [-> | H]; [lia|]. specialize (IH H). lia.
Qed.

Lemma find_app_single {A} (p : A -> bool) (l : list A) (x : A) :
  (forall y, In y l -> p y = false) -> p x = true -> find p (l ++ [x]) = Some x.
Proof.
  induction l as [|y l IH]; simpl; intros H Hx; [now rewrite Hx|].
  rewrite (H y (or_introl eq_refl)). apply IH; [|exact Hx].
  intros z Hz. apply H. now right.
Qed.

Lemma no_loan_find (uid bid : nat) (l : list Transaction) :
  (forall t, In t l -> t_user t = uid -> t_book t = bid -> is_loan (status t) = false) ->
  find (fun t => Nat.eqb (t_user t) uid && Nat.eqb (t_book t) bid && is_loan (status t)) l
  = None.
Proof.
  intros Hno. apply find_none_forall. intros t Ht.
  destruct (Nat.eqb (t_user t) uid) eqn:E1; [|reflexivity].
  destruct (Nat.eqb (t_book t) bid) eqn:E2; [|reflexivity].
  apply Nat.eqb_eq in E1, E2. simpl. now apply Hno.
Qed.

(** ** What Borrow writes *)

(** Every Borrow leaves the store as it was: a guard refuses it, or the save
    of the new transaction fails validation. *)
Lemma borrow_store_unchanged (now : Z) (uid bid : nat) (s : Store) :
  snd (borrow now uid bid s) = s.
Proof.
  unfold borrow.
  destruct (find_user uid s); [|reflexivity].
  destruct (find_book bid s) as [b|]; [|reflexivity].
  destruct (negb (b_isActive b) || isDeleted b); [reflexivity|].
  destruct (negb (canBeBorrowed b)); [reflexivity|].
  destruct (find _ (txs s)); reflexivity.
Qed.

Lemma borrow_at_preconditions (now : Z) (uid bid : nat) (s : Store) (u : User) (b : Book) :
  find_user uid s = Some u -> find_book bid s = Some b ->
  b_isActive b = true -> isDeleted b = false -> 0 < availableCopies b ->
  condition b <> C_damaged ->
  (forall t, In t (txs s) -> t_user t = uid -> t_book t = bid -> is_loan (status t) = false) ->
  borrow now uid bid s = (if isAvailable b then Fail ServerError else Fail Unavailable, s).
Proof.
  intros Hu Hb Ha Hd Hpos Hc Hno. unfold borrow. rewrite Hu, Hb, Ha, Hd. simpl.
  unfold canBeBorrowed. rewrite Hd.
  replace (0 <? availableCopies b) with true by (symmetry; now apply Z.ltb_lt).
  replace (Condition_beq (condition b) C_damaged) with false
    by (destruct (condition b); simpl; congruence).
  destruct (isAvailable b); simpl; [|reflexivity].
  rewrite (no_loan_find _ _ _ Hno). reflexivity.
Qed.


(** C5 (code defect).  Borrow by a user holding no loan of the book, on an
    existing, active, undeleted, undamaged book with a free copy, creates
    nothing: the transaction it builds has no [dueDate], which the schema
    requires for type 'borrow', and validation runs before the
    [pre('save')] hook that would set it, so the handler answers 500 (or
    Unavailable, when the stored [isAvailable] flag is false); no
    transaction is appended, and the book and the user are unchanged. *)
Theorem borrow_fails_at_save (now : Z) (uid bid : nat) (s : Store) (u : User) (b : Book) :
  find_user uid s = Some u -> find_book bid s = Some b ->
  b_isActive b = true -> isDeleted b = false -> 0 < availableCopies b ->
  condition b <> C_damaged ->
  (forall t, In t (txs s) -> t_user t = uid -> t_book t = bid -> is_loan (status t) = false) ->
  tx_validate (new_tx (new_id (txs s)) uid bid T_borrow S_active now None None
                 (condition b)) = false /\
  borrow now uid bid s = (if isAvailable b then Fail ServerError else Fail Unavailable, s).
Proof.
  intros Hu Hb Ha Hd Hpos Hc Hno. split; [reflexivity|].
  exact (borrow_at_preconditions now uid bid s u b Hu Hb Ha Hd Hpos Hc Hno).
Qed.

(** Witness for [borrow_fails_at_save]: member 1 asks for the only copy of a
    fresh paperback. *)
Lemma borrow_fails_at_save_witness :
  borrow 0 1 1 shelf_store = (Fail ServerError, shelf_store).
Proof.
  refine (proj2 (borrow_fails_at_save 0 1 1 shelf_store (sample_user 1 M_basic)
                   (fresh_book 1 1 paperback) eq_refl eq_refl eq_refl eq_refl _ _ _)).
  - vm_compute. reflexivity.
  - discriminate.
  - intros t Ht. simpl in Ht. contradiction.
Defined.

(** ** What the transaction methods keep *)

Lemma tx_pre_save_keys (now : Z) (n : bool) (t : Transaction) :
  t_id (tx_pre_save now n t) = t_id t /\ t_user (tx_pre_save now n t) = t_user t /\
  t_book (tx_pre_save now n t) = t_book t /\
  is_loan (status (tx_pre_save now n t)) = is_loan (status t).
Proof.
  unfold tx_pre_save.
  destruct (n && TxType_beq (t_type t) T_borrow
            && match dueDate t with Some _ => false | None => true end);
  [ set (t1 := set_dueDate _ t) | set (t1 := t) ];
  destruct (isOverdue now t1 && TxStatus_beq (status t1) S_active) eqn:E;
  try (repeat split; reflexivity);
  apply andb_true_iff in E; destruct E as [_ E];
  destruct (status t1) eqn:Es; try discriminate; simpl in *;
  unfold t1 in *; simpl in *; rewrite ?Es; repeat split; reflexivity.
Qed.

Lemma returnBook_loan (now : Z) (c : option Condition) (n : string) (t : Transaction) :
  is_loan (status t) = true ->
  exists t1, returnBook now c n t = Some t1 /\ t_id t1 = t_id t /\
             t_user t1 = t_user t /\ t_book t1 = t_book t /\ status t1 = S_completed.
Proof.
  intros H. unfold returnBook.
  replace (negb (TxStatus_beq (status t) S_active) && negb (TxStatus_beq (status t) S_overdue))
    with false by (destruct (status t); simpl in *; congruence).
  eexists; split; [reflexivity|].
  unfold tx_pre_save, calculateFine, isOverdue, set_fine, set_status, set_dueDate; simpl.
  destruct (FineStatus_beq (fineStatus t) F_paid || FineStatus_beq (fineStatus t) F_waived);
  simpl; destruct (dueDate t); simpl; rewrite ?andb_false_r; simpl;
  try (destruct (_ <? now)); simpl; repeat split.
Qed.

(** C6.  Return(transactionId) on a transaction whose status is neither
    'active' nor 'overdue' fails with NotActive and leaves the whole store,
    transactions, books and users, as it was. *)
Theorem return_tx_not_active (now : Z) (tid : nat) (c : option Condition) (n : string)
    (waive : bool) (s : Store) (t : Transaction) :
  find_tx tid s = Some t -> is_loan (status t) = false ->
  return_tx now tid c n waive s = (Fail NotActive, s).
Proof.
  intros Hf Hl. unfold return_tx. rewrite Hf.
  destruct (status t); simpl in *; congruence.
Qed.

Lemma return_tx_not_active_witness :
  option_map status (find_tx 1 returned_store) = Some S_completed /\
  return_tx (2 * DAY) 1 None EmptyString false returned_store
  = (Fail NotActive, returned_store).
Proof.
  split; [vm_compute; reflexivity|].
  eapply return_tx_not_active; [vm_compute; reflexivity | reflexivity].
Defined.



(** ** Counting loans *)

Lemma count_loans_app (k : nat) (l : list Transaction) (t : Transaction) :
  count_loans k (l ++ [t]) = (count_loans k l + ind_loan k t)%nat.
Proof.
  unfold count_loans, ind_loan. rewrite filter_app, length_app. simpl.
  destruct (Nat.eqb (t_book t) k && is_loan (status t)); reflexivity.
Qed.

Lemma count_loans_cons (k : nat) (t : Transaction) (l : list Transaction) :
  count_loans k (t :: l) = (ind_loan k t + count_loans k l)%nat.
Proof.
  unfold count_loans, ind_loan. simpl.
  destruct (Nat.eqb (t_book t) k && is_loan (status t)); reflexivity.
Qed.

Lemma replace_absent {A} (key : A -> nat) (x : A) (l : list A) :
  (forall y, In y l -> key y <> key x) -> replace_by_key key x l = l.
Proof.
  unfold replace_by_key. induction l as [|y l IH]; simpl; intros H; [reflexivity|].
  destruct (Nat.eqb (key y) (key x)) eqn:E.
  - apply Nat.eqb_eq in E. exfalso. exact (H y (or_introl eq_refl) E).
  - f_equal. apply IH. intros z Hz. apply H. now right.
Qed.

Lemma replace_twice {A} (key : A -> nat) (x1 x2 : A) (l : list A) :
  key x2 = key x1 ->
  replace_by_key key x2 (replace_by_key key x1 l) = replace_by_key key x2 l.
Proof.
  intros E. unfold replace_by_key. rewrite map_map. apply map_ext. intros y.
  rewrite E. destruct (Nat.eqb (key y) (key x1)) eqn:Ey; [now rewrite Nat.eqb_refl|].
  now rewrite Ey.
Qed.

(** Replacing one transaction [t] by [t'] with the same id moves each book's
    count by the difference of their indicators. *)
Lemma count_loans_replace (k : nat) (l : list Transaction) (t t' : Transaction) :
  NoDup (map t_id l) -> In t l -> t_id t' = t_id t ->
  (count_loans k (replace_by_key t_id t' l) + ind_loan k t
   = count_loans k l + ind_loan k t')%nat.
Proof.
  intros Hnd Hin Hid. induction l as [|y l IH]; [destruct Hin|].
  simpl in Hnd. apply NoDup_cons_iff in Hnd. destruct Hnd as [Hy Hnd].
  change (replace_by_key t_id t' (y :: l))
    with ((if Nat.eqb (t_id y) (t_id t') then t' else y) :: replace_by_key t_id t' l).
  rewrite !count_loans_cons.
  destruct (Nat.eqb (t_id y) (t_id t')) eqn:E.
  - apply Nat.eqb_eq in E.
    assert (y = t).
    { destruct Hin as [-> | Hin]; [reflexivity|].
      exfalso. apply Hy. rewrite E, Hid. now apply in_map. }
    subst y. rewrite replace_absent; [lia|].
    intros z Hz Ez. apply Hy. rewrite <- Hid, <- Ez. now apply in_map.
  - destruct Hin as [-> | Hin].
    + apply Nat.eqb_neq in E. congruence.
    + specialize (IH Hnd Hin). lia.
Qed.

Lemma NoDup_append_new (l : list Transaction) (t : Transaction) :
  NoDup (map t_id l) -> t_id t = new_id l -> NoDup (map t_id (l ++ [t])).
Proof.
  intros Hnd Ht. rewrite map_app. simpl. apply NoDup_app; [exact Hnd | repeat constructor; auto |].
  intros x Hx Hx'. simpl in Hx'. destruct Hx' as [<- | []].
  apply in_map_iff in Hx. destruct Hx as [y [Hy Hin]].
  pose proof (new_id_fresh _ _ Hin). lia.
Qed.

(** ** The invariant, book by book *)

Lemma books_ok_update (bl : list Book) (l l' : list Transaction) (bid : nat) (b' : Book) :
  Forall (book_ok l) bl -> b_id b' = bid -> book_ok l' b' ->
  (forall k, k <> bid -> count_loans k l' = count_loans k l) ->
  Forall (book_ok l') (replace_by_key b_id b' bl).
Proof.
  intros Hf Hb' Hok Hc. unfold replace_by_key. induction Hf as [|x bl Hx Hf IH]; simpl;
  constructor; [| exact IH].
  destruct (Nat.eqb (b_id x) (b_id b')) eqn:E; [exact Hok|].
  apply Nat.eqb_neq in E. unfold book_ok in *. rewrite Hc; [exact Hx | congruence].
Qed.

Lemma books_ok_same (bl : list Book) (l l' : list Transaction) :
  Forall (book_ok l) bl ->
  (forall x, In x bl -> count_loans (b_id x) l' = count_loans (b_id x) l) ->
  Forall (book_ok l') bl.
Proof.
  intros Hf Hc. induction Hf as [|x bl Hx Hf IH]; constructor.
  - unfold book_ok in *. rewrite Hc; [exact Hx | now left].
  - apply IH. intros y Hy. apply Hc. now right.
Qed.

Lemma inv_save_user (u : User) (s : Store) : Inv s -> Inv (save_user u s).
Proof. exact (fun H => H). Qed.

(** A transaction replaced by one with the same id, book and loan state. *)
Lemma inv_save_tx_same (s : Store) (t t' : Transaction) :
  Inv s -> In t (txs s) -> t_id t' = t_id t -> t_book t' = t_book t ->
  is_loan (status t') = is_loan (status t) -> Inv (save_tx t' s).
Proof.
  intros [Hnd Hf] Hin Hid Hbk Hl. split; simpl.
  - now rewrite map_key_replace.
  - apply (books_ok_same _ (txs s)); [exact Hf|].
    intros x _. pose proof (count_loans_replace (b_id x) _ _ _ Hnd Hin Hid) as H.
    unfold ind_loan in H. rewrite Hbk, Hl in H. lia.
Qed.

(** A new transaction that holds no copy. *)
Lemma inv_append_nonloan (s : Store) (t : Transaction) :
  Inv s -> t_id t = new_id (txs s) -> is_loan (status t) = false ->
  Inv (with_txs (txs s ++ [t]) s).
Proof.
  intros [Hnd Hf] Hid Hl. split; simpl.
  - now apply NoDup_append_new.
  - apply (books_ok_same _ (txs s)); [exact Hf|].
    intros x _. rewrite count_loans_app. unfold ind_loan. rewrite Hl, andb_false_r. lia.
Qed.

(** A new loan of book [b], whose copy count drops by one. *)
Lemma inv_add_loan (s : Store) (b : Book) (t : Transaction) :
  Inv s -> In b (books s) -> 0 < availableCopies b -> t_book t = b_id b ->
  is_loan (status t) = true -> t_id t = new_id (txs s) ->
  Inv (save_book (book_pre_save (set_availableCopies (availableCopies b - 1) b))
         (with_txs (txs s ++ [t]) s)).
Proof.
  intros [Hnd Hf] Hin Hpos Hbk Hl Hid. split; simpl.
  - now apply NoDup_append_new.
  - pose proof (proj1 (Forall_forall _ _) Hf b Hin) as [Hr Hc].
    apply (books_ok_update _ (txs s) _ (b_id b)); [exact Hf | reflexivity | |].
    + unfold book_ok. simpl. rewrite count_loans_app. unfold ind_loan.
      rewrite Hbk, Nat.eqb_refl, Hl. simpl. lia.
    + intros k Hk. rewrite count_loans_app. unfold ind_loan.
      rewrite Hbk. apply not_eq_sym, Nat.eqb_neq in Hk. rewrite Hk. simpl. lia.
Qed.

Lemma save_tx_twice (t1 t2 : Transaction) (s : Store) :
  t_id t2 = t_id t1 -> save_tx t2 (save_tx t1 s) = save_tx t2 s.
Proof. intros E. unfold save_tx, with_txs. simpl. now rewrite replace_twice. Qed.

(** A loan of book [t_book t] replaced by a transaction holding no copy,
    with that book's copy count raised by one when the book exists. *)
Lemma inv_return_step (s : Store) (t t' : Transaction) :
  Inv s -> In t (txs s) -> is_loan (status t) = true -> t_id t' = t_id t ->
  t_book t' = t_book t -> is_loan (status t') = false ->
  (forall b, find_book (t_book t) s = Some b ->
     Inv (save_book (book_pre_save (set_availableCopies (availableCopies b + 1) b))
            (save_tx t' s))) /\
  (find_book (t_book t) s = None -> Inv (save_tx t' s)).
Proof.
  intros [Hnd Hf] Hin Hl Hid Hbk Hl'.
  assert (Hcnt : forall k, (count_loans k (replace_by_key t_id t' (txs s))
                            + (if Nat.eqb (t_book t) k then 1 else 0)
                            = count_loans k (txs s))%nat).
  { intros k. pose proof (count_loans_replace k _ _ _ Hnd Hin Hid) as H.
    unfold ind_loan in H. rewrite Hl, Hl', !andb_true_r, andb_false_r in H. lia. }
  split.
  - intros b Hb. destruct (find_key_some b_id _ _ _ Hb) as [Hinb Hbid].
    pose proof (proj1 (Forall_forall _ _) Hf b Hinb) as [Hr Hc].
    split; simpl; [now rewrite map_key_replace|].
    apply (books_ok_update _ (txs s) _ (b_id b)); [exact Hf | reflexivity | |].
    + specialize (Hcnt (b_id b)). rewrite Hbid, Nat.eqb_refl in Hcnt.
      unfold book_ok. simpl. rewrite Hbid in Hc |- *. lia.
    + intros k Hk. specialize (Hcnt k).
      replace (Nat.eqb (t_book t) k) with false in Hcnt
        by (symmetry; apply Nat.eqb_neq; congruence). lia.
  - intros Hb. split; simpl; [now rewrite map_key_replace|].
    apply (books_ok_same _ (txs s)); [exact Hf|].
    intros x Hx. specialize (Hcnt (b_id x)).
    pose proof (find_none _ _ Hb x Hx) as Hne. simpl in Hne.
    rewrite Nat.eqb_sym in Hne. rewrite Hne in Hcnt. lia.
Qed.

Lemma renew_keys (now d : Z) (t t' : Transaction) :
  renew now d t = Some t' ->
  t_id t' = t_id t /\ t_book t' = t_book t /\ is_loan (status t') = is_loan (status t).
Proof.
  unfold renew. destruct (negb (canRenew now t)); [discriminate|].
  intros H. injection H as <-.
  destruct (tx_pre_save_keys now false
    (mkTx (t_id t) (t_user t) (t_book t) T_renew (status t) (borrowDate t)
       (Some (now + d * DAY)) (returnDate t) (actualReturnDate t)
       (renewalCount t + 1) (maxRenewals t) (Some now) (reservationDate t)
       (reservationExpiry t) (fineAmount t) (fineStatus t)
       (bookConditionAtBorrow t) (bookConditionAtReturn t) (conditionNotes t)
       (isDigital t))) as (H1 & _ & H3 & H4).
  simpl in *. auto.
Qed.

Ltac inv_user_tail :=
  match goal with
  | |- Inv (match find_user ?x ?y with _ => _ end) =>
      destruct (find_user x y); [apply inv_save_user|]
  end.

Lemma inv_borrow (now : Z) (uid bid : nat) (s : Store) :
  Inv s -> Inv (snd (borrow now uid bid s)).
Proof. intros HI. rewrite borrow_store_unchanged. exact HI. Qed.

Lemma inv_return_book (now : Z) (uid bid : nat) (c : option Condition) (n : string)
    (s : Store) :
  Inv s -> Inv (snd (return_book now uid bid c n s)).
Proof.
  intros HI. unfold return_book.
  destruct (find_user uid s) as [u|]; [|exact HI].
  destruct (find _ (txs s)) as [t|] eqn:Hf; [|exact HI].
  apply find_some in Hf. destruct Hf as [Hin Hp].
  apply andb_true_iff in Hp. destruct Hp as [Hp Hl]. apply andb_true_iff in Hp.
  destruct Hp as [_ Hbk]. apply Nat.eqb_eq in Hbk.
  destruct (returnBook_loan now c n t Hl) as (t1 & Hr & Hid & _ & Hbk1 & Hst).
  rewrite Hr. rewrite find_book_save_tx.
  assert (Hl1 : is_loan (status t1) = false) by now rewrite Hst.
  destruct (inv_return_step s t t1 HI Hin Hl Hid Hbk1 Hl1) as [H1 H2].
  rewrite Hbk in H1, H2.
  destruct (find_book bid s) as [b|] eqn:Hb; simpl.
  - apply inv_save_user. now apply H1.
  - now apply H2.
Qed.

Lemma inv_return_tx (now : Z) (tid : nat) (c : option Condition) (n : string) (w : bool)
    (s : Store) :
  Inv s -> Inv (snd (return_tx now tid c n w s)).
Proof.
  intros HI. unfold return_tx.
  destruct (find_tx tid s) as [t|] eqn:Hf; [|exact HI].
  destruct (negb (TxStatus_beq (status t) S_active)
            && negb (TxStatus_beq (status t) S_overdue)) eqn:Eg; [exact HI|].
  assert (Hl : is_loan (status t) = true) by (destruct (status t); simpl in *; congruence).
  destruct (find_key_some t_id _ _ _ Hf) as [Hin _].
  destruct (returnBook_loan now c n t Hl) as (t1 & Hr & Hid & _ & Hbk1 & Hst).
  rewrite Hr. cbv zeta.
  destruct (w && (0 <? fineAmount t1)).
  - set (t2 := tx_pre_save now false (set_fine (fineAmount t1) F_waived t1)).
    destruct (tx_pre_save_keys now false (set_fine (fineAmount t1) F_waived t1))
      as (Hid2 & _ & Hbk2 & Hl2).
    fold t2 in Hid2, Hbk2, Hl2. simpl in Hid2, Hbk2, Hl2.
    rewrite save_tx_twice by exact Hid2.
    rewrite find_book_save_tx.
    assert (Hl2' : is_loan (status t2) = false) by (rewrite Hl2, Hst; reflexivity).
    destruct (inv_return_step s t t2 HI Hin Hl ltac:(congruence) ltac:(congruence) Hl2')
      as [H1 H2].
    rewrite Hbk2, Hbk1.
    destruct (find_book (t_book t) s) as [b|]; simpl.
    + inv_user_tail; now apply H1.
    + inv_user_tail; now apply H2.
  - rewrite find_book_save_tx.
    assert (Hl1 : is_loan (status t1) = false) by now rewrite Hst.
    destruct (inv_return_step s t t1 HI Hin Hl Hid Hbk1 Hl1) as [H1 H2].
    rewrite Hbk1.
    destruct (find_book (t_book t) s) as [b|]; simpl.
    + inv_user_tail; now apply H1.
    + inv_user_tail; now apply H2.
Qed.

Lemma inv_renew_book (now : Z) (uid bid : nat) (s : Store) :
  Inv s -> Inv (snd (renew_book now uid bid s)).
Proof.
  intros HI. unfold renew_book.
  destruct (find_user uid s); [|exact HI].
  destruct (find _ (txs s)) as [t|] eqn:Hf; [|exact HI].
  apply find_some in Hf. destruct Hf as [Hin _].
  destruct (negb (canRenew now t)); [exact HI|].
  destruct (renew now 14 t) as [t'|] eqn:Hr; [|exact HI].
  destruct (renew_keys _ _ _ _ Hr) as (H1 & H2 & H3).
  now apply (inv_save_tx_same s t t').
Qed.

Lemma inv_renew_tx (now : Z) (uid tid : nat) (d : option Z) (s : Store) :
  Inv s -> Inv (snd (renew_tx now uid tid d s)).
Proof.
  intros HI. unfold renew_tx.
  destruct (find_user uid s); [|exact HI].
  destruct (find_tx tid s) as [t|] eqn:Hf; [|exact HI].
  destruct (find_key_some t_id _ _ _ Hf) as [Hin _].
  destruct (_ && _); [exact HI|].
  destruct (negb (canRenew now t)); [exact HI|].
  match goal with |- Inv (snd (match renew now ?dd t with _ => _ end)) =>
    destruct (renew now dd t) as [t'|] eqn:Hr end; [|exact HI].
  destruct (renew_keys _ _ _ _ Hr) as (H1 & H2 & H3).
  now apply (inv_save_tx_same s t t').
Qed.

Lemma inv_reserve (now : Z) (uid bid : nat) (s : Store) :
  Inv s -> Inv (snd (reserve now uid bid s)).
Proof.
  intros HI. unfold reserve.
  destruct (find_user uid s); [|exact HI].
  destruct (find_book bid s) as [b|]; [|exact HI].
  destruct (_ || _); [exact HI|].
  destruct (find _ (txs s)); [exact HI|].
  simpl. apply inv_append_nonloan; [exact HI| |].
  - apply (tx_pre_save_keys now true).
  - rewrite (proj2 (proj2 (proj2 (tx_pre_save_keys _ _ _)))). reflexivity.
Qed.

Lemma inv_cancel_reservation (now : Z) (uid bid : nat) (s : Store) :
  Inv s -> Inv (snd (cancel_reservation now uid bid s)).
Proof.
  intros HI. unfold cancel_reservation.
  destruct (find_user uid s); [|exact HI].
  destruct (find _ (txs s)) as [t|] eqn:Hf; [|exact HI].
  apply find_some in Hf. destruct Hf as [Hin Hp].
  apply andb_true_iff in Hp. destruct Hp as [_ Hp].
  destruct (tx_pre_save_keys now false (set_status S_cancelled t)) as (H1 & _ & H3 & H4).
  simpl. apply (inv_save_tx_same s t); [exact HI | exact Hin | exact H1 | exact H3 |].
  rewrite H4. simpl. destruct (status t); simpl in *; congruence.
Qed.

Lemma inv_run_op (now : Z) (o : Op) (s : Store) : Inv s -> Inv (snd (run_op now o s)).
Proof.
  destruct o; simpl.
  - apply inv_borrow.
  - apply inv_return_book.
  - apply inv_return_tx.
  - apply inv_renew_book.
  - apply inv_renew_tx.
  - apply inv_reserve.
  - apply inv_cancel_reservation.
Qed.

(** C2.  Starting from a store where every Book satisfies the copy-count
    invariant (and transaction ids are distinct), after any sequence of
    Borrow, Return (either route), Renew (either route), Reserve and
    CancelReservation requests (a Borrow, failing at its save, writes
    nothing), every Book has
    [0 <= availableCopies <= totalCopies] and
    [totalCopies - availableCopies] equal to the number of its transactions in
    status 'active' or 'overdue'. *)
Theorem lifecycle_keeps_copy_counts (ops : list (Z * Op)) (s : Store) :
  Inv s ->
  Forall (fun b => 0 <= availableCopies b <= totalCopies b /\
                   totalCopies b - availableCopies b
                   = Z.of_nat (count_loans (b_id b) (txs (run_ops ops s))))
         (books (run_ops ops s)).
Proof.
  revert s. induction ops as [|[now o] ops IH]; intros s HI; simpl.
  - exact (proj2 HI).
  - apply IH. now apply inv_run_op.
Qed.

Lemma lifecycle_keeps_copy_counts_witness :
  Inv lifecycle_start /\
  Forall (fun b => 0 <= availableCopies b <= totalCopies b /\
                   totalCopies b - availableCopies b
                   = Z.of_nat (count_loans (b_id b) (txs (run_ops lifecycle_run lifecycle_start))))
         (books (run_ops lifecycle_run lifecycle_start)).
Proof.
  assert (H : Inv lifecycle_start).
  { split; [constructor; [simpl; tauto | constructor]|].
    repeat constructor; vm_compute; first [discriminate | reflexivity]. }
  exact (conj H (lifecycle_keeps_copy_counts lifecycle_run lifecycle_start H)).
Defined.

(** * Further properties of the routes and models *)

(** Routing of routes/books.js: [GET /trending] and [GET /popular] are
    registered after [GET /:id], so Express never reaches them; a one-segment
    GET path such as [/trending] goes to [GET /:id]. *)
Theorem books_trending_popular_unreachable :
  (forall xs, dispatch books_routes Get xs <> Some BooksTrending /\
              dispatch books_routes Get xs <> Some BooksPopular) /\
  (forall x, dispatch books_routes Get [x]
             = if String.eqb x EmptyString then None else Some BookGet).
Proof.
  assert (H1 : forall x, dispatch books_routes Get [x]
             = if String.eqb x EmptyString then None else Some BookGet).
  { intros x. destruct (String.eqb x EmptyString) eqn:E.
    - apply String.eqb_eq in E. subst x. reflexivity.
    - unfold dispatch, books_routes. simpl. rewrite E. reflexivity. }
  split; [|exact H1].
  intros [|x [|y ys]].
  - split; discriminate.
  - rewrite H1. destruct (String.eqb x EmptyString); split; discriminate.
  - unfold dispatch, books_routes. simpl find. rewrite !andb_false_r. simpl. split; discriminate.
Qed.

(** Routing of routes/transactions.js: [GET /overdue] and [GET /due-soon]
    come after [GET /:id] and are never reached; a one-segment GET path is
    handled by [GET /:id]. *)
Theorem tx_overdue_due_soon_unreachable :
  (forall xs, dispatch transactions_routes Get xs <> Some TxOverdue /\
              dispatch transactions_routes Get xs <> Some TxDueSoon) /\
  (forall x, dispatch transactions_routes Get [x]
             = if String.eqb x EmptyString then None else Some TxGet).
Proof.
  assert (H1 : forall x, dispatch transactions_routes Get [x]
             = if String.eqb x EmptyString then None else Some TxGet).
  { intros x. destruct (String.eqb x EmptyString) eqn:E.
    - apply String.eqb_eq in E. subst x. reflexivity.
    - unfold dispatch, transactions_routes. simpl. rewrite E. reflexivity. }
  split; [|exact H1].
  intros [|x [|y ys]].
  - split; discriminate.
  - rewrite H1. destruct (String.eqb x EmptyString); split; discriminate.
  - unfold dispatch, transactions_routes. simpl find. rewrite !andb_false_r. simpl. split; discriminate.
Qed.

(** Routing of routes/reviews.js: [GET /top] comes after [GET /:id] and is
    never reached; a one-segment GET path is handled by [GET /:id]. *)
Theorem reviews_top_unreachable :
  (forall xs, dispatch reviews_routes Get xs <> Some ReviewsTop) /\
  (forall x, dispatch reviews_routes Get [x]
             = if String.eqb x EmptyString then None else Some ReviewGet).
Proof.
  assert (H1 : forall x, dispatch reviews_routes Get [x]
             = if String.eqb x EmptyString then None else Some ReviewGet).
  { intros x. destruct (String.eqb x EmptyString) eqn:E.
    - apply String.eqb_eq in E. subst x. reflexivity.
    - unfold dispatch, reviews_routes. simpl. rewrite E. reflexivity. }
  split; [|exact H1].
  intros [|x [|y ys]].
  - discriminate.
  - rewrite H1. destruct (String.eqb x EmptyString); discriminate.
  - unfold dispatch, reviews_routes. simpl find. rewrite !andb_false_r. simpl. discriminate.
Qed.

Lemma ceil_div_gt (p n d : Z) : 0 < d -> (p < - ((- n) / d) <-> p * d < n).
Proof.
  intros Hd.
  pose proof (Z.div_mod (- n) d ltac:(lia)) as E.
  pose proof (Z.mod_pos_bound (- n) d Hd) as B.
  set (q := (- n) / d) in *. set (r := (- n) mod d) in *.
  split; intros H; nia.
Qed.

(** The listing routes' pagination: for [page >= 1] and [limit >= 1],
    [hasNext = page < totalPages] holds exactly when the next page of the
    result list is not empty. *)
Theorem page_hasNext {A : Type} (page limit : Z) (l : list A) :
  1 <= page -> 1 <= limit ->
  (hasNext page (Z.of_nat (List.length l)) limit = true <-> page_of (page + 1) limit l <> []).
Proof.
  intros Hp Hl. unfold hasNext, page_of, totalPages.
  rewrite Z.ltb_lt, ceil_div_gt by lia.
  replace (page + 1 - 1) with page by lia.
  assert (Ek : Z.of_nat (Z.to_nat limit) = limit) by (apply Z2Nat.id; lia).
  assert (Em : Z.of_nat (Z.to_nat (page * limit)) = page * limit) by (apply Z2Nat.id; nia).
  split.
  - intros H E. apply (f_equal (@List.length A)) in E.
    rewrite length_firstn, length_skipn in E. simpl in E. lia.
  - intros H. destruct (Z_lt_le_dec (page * limit) (Z.of_nat (List.length l))) as [Hlt|Hge];
      [exact Hlt|].
    exfalso. apply H. apply length_zero_iff_nil.
    rewrite length_firstn, length_skipn. lia.
Qed.

Lemma overdue_hook (now : Z) (t1 : Transaction) :
  let t2 := if isOverdue now t1 && TxStatus_beq (status t1) S_active
            then set_status S_overdue t1 else t1 in
  isOverdue now t2 = false /\
  (status t2 = status t1 \/ status t1 = S_active /\ status t2 = S_overdue).
Proof.
  intros t2. subst t2.
  destruct (isOverdue now t1 && TxStatus_beq (status t1) S_active) eqn:E.
  - apply andb_true_iff in E. destruct E as [_ E].
    destruct (status t1) eqn:Es; try discriminate.
    split.
    + unfold isOverdue, set_status. simpl. destruct (dueDate t1); [apply andb_false_r | reflexivity].
    + right. split; reflexivity.
  - split; [|left; reflexivity].
    destruct (isOverdue now t1) eqn:Eo; [|reflexivity].
    unfold isOverdue in *. destruct (dueDate t1); [|discriminate].
    apply andb_true_iff in Eo. destruct Eo as [_ Eo]. rewrite Eo in E. discriminate.
Qed.

(** The [pre('save')] hooks of Transaction: after a save, the virtual
    [isOverdue] is false; the status is unchanged, or moved from 'active' to
    'overdue'. *)
Theorem tx_save_clears_isOverdue (now : Z) (isNew : bool) (t : Transaction) :
  isOverdue now (tx_pre_save now isNew t) = false /\
  (status (tx_pre_save now isNew t) = status t \/
   status t = S_active /\ status (tx_pre_save now isNew t) = S_overdue).
Proof.
  unfold tx_pre_save. cbv zeta.
  lazymatch goal with |- context [if ?c then set_dueDate _ _ else _] => destruct c end;
  lazymatch goal with
  | |- context [isOverdue now (if _ then set_status _ ?t1 else _)] => exact (overdue_hook now t1)
  end.
Qed.

Lemma ceil_days_bounds (x days : Z) : 0 <= x <= days * DAY -> 0 <= ceil_days x <= days.
Proof.
  unfold ceil_days. intros [H1 H2]. assert (HD : 0 < DAY) by (unfold DAY; lia).
  split.
  - assert ((- x) / DAY <= 0 / DAY) by (apply Z.div_le_mono; lia).
    rewrite Z.div_0_l in H by lia. lia.
  - assert ((- days * DAY) / DAY <= (- x) / DAY) by (apply Z.div_le_mono; lia).
    rewrite Z.div_mul in H by lia. lia.
Qed.

(** static [findDueSoon(days)]: every transaction it returns has
    [daysUntilDue] between 0 and [days], is not overdue, and is not among the
    results of [findOverdue()]. *)
Theorem findDueSoon_window (now days : Z) (l : list Transaction) (t : Transaction) :
  In t (findDueSoon now days l) ->
  (exists k, daysUntilDue now t = Some k /\ 0 <= k <= days) /\
  isOverdue now t = false /\ ~ In t (findOverdue now l).
Proof.
  unfold findDueSoon. intros H. apply filter_In in H. destruct H as [Hin Hp].
  apply andb_true_iff in Hp. destruct Hp as [Hst Hd].
  destruct (dueDate t) as [d|] eqn:Ed; [|discriminate].
  apply andb_true_iff in Hd. destruct Hd as [H1 H2].
  apply Z.leb_le in H1. apply Z.leb_le in H2.
  destruct (status t) eqn:Es; try discriminate.
  split; [|split].
  - exists (ceil_days (d - now)). unfold daysUntilDue. rewrite Ed, Es. split; [reflexivity|].
    apply ceil_days_bounds. lia.
  - unfold isOverdue. rewrite Ed. replace (d <? now) with false by (symmetry; apply Z.ltb_ge; lia).
    reflexivity.
  - unfold findOverdue. intros Hf. apply filter_In in Hf. destruct Hf as [_ Hf].
    rewrite Es, Ed in Hf. simpl in Hf. apply Z.ltb_lt in Hf. lia.
Qed.

Lemma not_active_check (st : TxStatus) :
  negb (TxStatus_beq st S_active) && negb (TxStatus_beq st S_overdue) = negb (is_loan st).
Proof. destruct st; reflexivity. Qed.

Lemma tx_pre_save_fine (now : Z) (n : bool) (t : Transaction) :
  fineAmount (tx_pre_save now n t) = fineAmount t /\
  fineStatus (tx_pre_save now n t) = fineStatus t.
Proof.
  unfold tx_pre_save. cbv zeta.
  lazymatch goal with |- context [if ?c then set_dueDate _ _ else _] => destruct c end;
  lazymatch goal with |- context [if ?c then set_status _ _ else _] => destruct c end;
  split; reflexivity.
Qed.

Lemma find_tx_save_tx_same (t : Transaction) (s : Store) :
  find_tx (t_id t) s <> None -> find_tx (t_id t) (save_tx t s) = Some t.
Proof. unfold find_tx, save_tx. simpl. apply find_replace_same. Qed.

Lemma find_tx_save_book (k : nat) (b : Book) (s : Store) :
  find_tx k (save_book b s) = find_tx k s.
Proof. reflexivity. Qed.

Lemma find_tx_save_user (k : nat) (u : User) (s : Store) :
  find_tx k (save_user u s) = find_tx k s.
Proof. reflexivity. Qed.

Lemma returnBook_settled (now : Z) (c : option Condition) (n : string) (t : Transaction) :
  is_loan (status t) = true -> (fineStatus t = F_paid \/ fineStatus t = F_waived) ->
  exists t', returnBook now c n t = Some t' /\ t_id t' = t_id t /\ status t' = S_completed /\
             fineAmount t' = fineAmount t /\ fineStatus t' = fineStatus t.
Proof.
  intros Hl Hfs. unfold returnBook. rewrite not_active_check, Hl. simpl negb. cbv iota.
  eexists; split; [reflexivity|].
  unfold calculateFine. simpl fineStatus.
  replace (FineStatus_beq (fineStatus t) F_paid || FineStatus_beq (fineStatus t) F_waived)
    with true by (destruct Hfs as [E|E]; rewrite E; reflexivity).
  unfold tx_pre_save. simpl. unfold isOverdue. simpl.
  destruct (dueDate t); simpl; rewrite ?andb_false_r; repeat split.
Qed.

(** [POST /api/transactions/:id/fine] then [POST /api/transactions/:id/return]:
    a fine set with status 'paid' or 'waived' on a transaction that holds a
    copy survives [returnBook] ([calculateFine] leaves settled fines alone);
    the transaction is completed with that amount, and with that status
    unless [waiveFine] is truthy and the amount positive, in which case the
    route sets 'waived'. *)
Theorem settled_fine_survives_return (now now' : Z) (tid : nat) (c : option Condition)
    (n : string) (waive : bool) (a : Z) (fs : FineStatus) (s : Store) (t : Transaction) :
  find_tx tid s = Some t -> is_loan (status t) = true -> (fs = F_paid \/ fs = F_waived) ->
  let s1 := snd (fine_update now tid (Some a) (Some fs) s) in
  fst (return_tx now' tid c n waive s1) = Ok /\
  option_map (fun x => (status x, fineAmount x, fineStatus x))
    (find_tx tid (snd (return_tx now' tid c n waive s1)))
  = Some (S_completed, a, if waive && (0 <? a) then F_waived else fs).
Proof.
  intros Hf Hl Hfs s1.
  destruct (find_key_some t_id tid _ _ Hf) as [_ Hid].
  set (T1 := tx_pre_save now false (set_fine a fs (set_fine a (fineStatus t) t))).
  assert (Hs1 : s1 = save_tx T1 s) by (unfold s1, fine_update; rewrite Hf; reflexivity).
  destruct (tx_pre_save_keys now false (set_fine a fs (set_fine a (fineStatus t) t)))
    as (Hk1 & _ & _ & Hk4).
  destruct (tx_pre_save_fine now false (set_fine a fs (set_fine a (fineStatus t) t)))
    as [Ha Hfs1].
  fold T1 in Hk1, Hk4, Ha, Hfs1. simpl in Hk1, Hk4, Ha, Hfs1.
  assert (HT1 : find_tx tid s1 = Some T1).
  { rewrite Hs1, <- Hid, <- Hk1. apply find_tx_save_tx_same. rewrite Hk1, Hid, Hf. discriminate. }
  destruct (returnBook_settled now' c n T1) as (T2 & HR & Hid2 & Hst2 & Ha2 & Hfs2).
  { rewrite Hk4. exact Hl. }
  { rewrite Hfs1. exact Hfs. }
  unfold return_tx. rewrite HT1, not_active_check, Hk4, Hl. simpl negb. cbv iota.
  rewrite HR. cbv zeta.
  assert (HT2 : find_tx tid (save_tx T2 s1) = Some T2).
  { rewrite <- Hid, <- Hk1, <- Hid2. apply find_tx_save_tx_same. rewrite Hid2, Hk1, Hid, HT1.
    discriminate. }
  rewrite Ha2, Ha.
  destruct (waive && (0 <? a)).
  - set (T3 := tx_pre_save now' false (set_fine a F_waived T2)).
    destruct (tx_pre_save_keys now' false (set_fine a F_waived T2)) as (Hk3 & _ & _ & _).
    destruct (tx_pre_save_fine now' false (set_fine a F_waived T2)) as [Ha3 Hfs3].
    fold T3 in Hk3, Ha3, Hfs3. simpl in Hk3, Ha3, Hfs3.
    assert (Hst3 : status T3 = S_completed).
    { unfold T3, tx_pre_save. simpl. rewrite Hst2. simpl.
      rewrite andb_false_r. simpl. exact Hst2. }
    assert (HT3 : find_tx tid (save_tx T3 (save_tx T2 s1)) = Some T3).
    { rewrite <- Hid, <- Hk1, <- Hid2, <- Hk3. apply find_tx_save_tx_same.
      rewrite Hk3, Hid2, Hk1, Hid, HT2. discriminate. }
    cbn [fst snd].
    destruct (find_book (t_book T3) (save_tx T3 (save_tx T2 s1)));
    [set (s3 := save_book _ _) | set (s3 := save_tx T3 (save_tx T2 s1))];
    destruct (find_user (t_user T3) s3); unfold s3;
    rewrite ?find_tx_save_user, ?find_tx_save_book, HT3; simpl;
    rewrite Hst3, Ha3, Hfs3; split; reflexivity.
  - cbn [fst snd].
    destruct (find_book (t_book T2) (save_tx T2 s1));
    [set (s3 := save_book _ _) | set (s3 := save_tx T2 s1)];
    destruct (find_user (t_user T2) s3); unfold s3;
    rewrite ?find_tx_save_user, ?find_tx_save_book, HT2; simpl;
    rewrite Hst2, Ha2, Hfs2, Ha, Hfs1; split; reflexivity.
Qed.

Lemma condition_save_book (k bid : nat) (m : Z) (b : Book) (s : Store) :
  find_book bid s = Some b ->
  option_map condition (find_book k (save_book (book_pre_save (set_availableCopies m b)) s))
  = option_map condition (find_book k s).
Proof.
  intros Hb. destruct (find_key_some b_id bid _ _ Hb) as [_ Hbid].
  destruct (Nat.eq_dec k bid) as [->|Hne].
  - assert (Hk : b_id (book_pre_save (set_availableCopies m b)) = bid) by exact Hbid.
    rewrite <- Hk. rewrite find_book_save_same.
    + rewrite Hk, Hb. reflexivity.
    + rewrite Hk, Hb. discriminate.
  - unfold find_book, save_book. simpl.
    rewrite (find_replace_other b_id (book_pre_save (set_availableCopies m b))); [reflexivity|].
    simpl. congruence.
Qed.

(** The return routes ([POST /api/transactions/:id/return] and
    [POST /api/books/:id/return]) never change the [condition] of any book,
    whatever condition the request reports. *)
Theorem return_keeps_book_condition (now : Z) (tid uid bid : nat) (c : option Condition)
    (n : string) (waive : bool) (s : Store) (k : nat) :
  option_map condition (find_book k (snd (return_tx now tid c n waive s)))
  = option_map condition (find_book k s) /\
  option_map condition (find_book k (snd (return_book now uid bid c n s)))
  = option_map condition (find_book k s).
Proof.
  split.
  - unfold return_tx.
    destruct (find_tx tid s) as [t|]; [|reflexivity].
    destruct (_ && _); [reflexivity|].
    destruct (returnBook now c n t) as [t1|]; [|reflexivity].
    destruct (waive && (0 <? fineAmount t1)); cbv zeta;
    lazymatch goal with
    | |- context [match find_book ?kb ?s2 with Some _ => _ | None => _ end] =>
        destruct (find_book kb s2) as [b|] eqn:Eb
    end;
    lazymatch goal with
    | |- context [match find_user ?ku ?s3 with Some _ => _ | None => _ end] =>
        destruct (find_user ku s3)
    end; cbn [snd];
    rewrite ?find_book_save_user;
    try (rewrite (condition_save_book k _ _ _ _ Eb));
    reflexivity.
  - unfold return_book.
    destruct (find_user uid s); [|reflexivity].
    destruct (find _ (txs s)) as [t|]; [|reflexivity].
    destruct (returnBook now c n t) as [t1|]; [|reflexivity].
    destruct (find_book bid (save_tx t1 s)) as [b|] eqn:Eb; [|reflexivity].
    cbn [snd]. rewrite find_book_save_user, (condition_save_book k _ _ _ _ Eb).
    reflexivity.
Qed.

(** [DELETE /api/books/:id] keeps the copy-count invariant, and while a
    transaction of the book is active or overdue it refuses and leaves the
    store unchanged. *)
Theorem delete_book_guarded (bid : nat) (s : Store) :
  Inv s ->
  Inv (snd (delete_book bid s)) /\
  ((0 < count_loans bid (txs s))%nat -> snd (delete_book bid s) = s /\ fst (delete_book bid s) <> Done).
Proof.
  intros HI. unfold delete_book.
  destruct (find_book bid s) as [b|] eqn:Hb.
  2:{ split; [exact HI|]. intros _. split; [reflexivity|discriminate]. }
  destruct (isDeleted b).
  { split; [exact HI|]. intros _. split; [reflexivity|discriminate]. }
  destruct (0 <? Z.of_nat (count_loans bid (txs s))) eqn:Ec.
  { split; [exact HI|]. intros _. split; [reflexivity|discriminate]. }
  split.
  - destruct HI as [Hnd Hf]. destruct (find_key_some b_id bid _ _ Hb) as [Hin Hbid].
    split; [exact Hnd|]. simpl.
    apply (books_ok_update _ (txs s) (txs s) bid); [exact Hf | exact Hbid | | reflexivity].
    rewrite Forall_forall in Hf. specialize (Hf b Hin). unfold book_ok in *. simpl. exact Hf.
  - intros H. apply Z.ltb_ge in Ec. lia.
Qed.

(** After a successful [DELETE /api/books/:id], the soft-deleted book is
    treated as missing: borrowing, reserving, updating and deleting it again
    all answer 'not found', whatever the body of the update. *)
Theorem deleted_book_stays_gone (bid uid : nat) (now : Z) (body : BookBody) (s : Store)
    (u : User) :
  fst (delete_book bid s) = Done -> find_user uid s = Some u ->
  let s' := snd (delete_book bid s) in
  fst (borrow now uid bid s') = Fail NotFound /\
  fst (reserve now uid bid s') = Fail NotFound /\
  fst (update_book bid body s') = Fail NotFound /\
  fst (delete_book bid s') = Refused 404 "Book not found".
Proof.
  intros Hd Hu. cbv zeta.
  destruct (find_book bid s) as [b|] eqn:Hb.
  2:{ unfold delete_book in Hd. rewrite Hb in Hd. discriminate. }
  destruct (isDeleted b) eqn:Hdel.
  { unfold delete_book in Hd. rewrite Hb, Hdel in Hd. discriminate. }
  destruct (0 <? Z.of_nat (count_loans bid (txs s))) eqn:Hc.
  { unfold delete_book in Hd. rewrite Hb, Hdel, Hc in Hd. discriminate. }
  destruct (find_key_some b_id bid _ _ Hb) as [_ Hbid].
  set (b' := book_pre_save (mkBook (b_id b) (totalCopies b) (availableCopies b) (isAvailable b)
                 false true (condition b) (format b) (averageRating b)
                 (totalRatings b) (totalReviews b))).
  assert (E : delete_book bid s = (Done, save_book b' s))
    by (unfold delete_book; rewrite Hb, Hdel, Hc; reflexivity).
  rewrite E. cbn [snd]. set (s' := save_book b' s).
  assert (Hb' : find_book bid s' = Some b').
  { unfold s'. assert (Hk : b_id b' = bid) by exact Hbid. rewrite <- Hk.
    apply find_book_save_same. rewrite Hk, Hb. discriminate. }
  assert (Hu' : find_user uid s' = Some u) by (unfold s'; rewrite find_user_save_book; exact Hu).
  unfold borrow, reserve, update_book, delete_book. rewrite Hu', Hb'.
  simpl. repeat split.
Qed.

Lemma find_book_update_some (bid : nat) (f : Book -> Book) (s : Store) (b : Book) :
  find_book bid s = Some b -> b_id (f b) = bid ->
  find_book bid (findByIdAndUpdate_book bid f s) = Some (f b).
Proof.
  unfold find_book, findByIdAndUpdate_book. simpl. induction (books s) as [|x l IH]; simpl.
  - discriminate.
  - intros H Hf. destruct (Nat.eqb (b_id x) bid) eqn:E.
    + injection H as ->. rewrite Hf, Nat.eqb_refl. reflexivity.
    + rewrite E. apply IH; assumption.
Qed.

Lemma nodup_key_unique {A} (key : A -> nat) (l : list A) (x y : A) :
  NoDup (map key l) -> In x l -> In y l -> key x = key y -> x = y.
Proof.
  induction l as [|z l IH]; simpl; [tauto|].
  intros Hnd Hx Hy Hk. inversion Hnd as [|? ? Hnin Hnd']. subst.
  destruct Hx as [<-|Hx], Hy as [<-|Hy]; [reflexivity | | |].
  - exfalso. apply Hnin. rewrite Hk. now apply in_map.
  - exfalso. apply Hnin. rewrite <- Hk. now apply in_map.
  - now apply IH.
Qed.

(** With distinct book ids, an update query of one book keeps the invariant
    exactly when the updated book satisfies it. *)
Lemma inv_update_iff (bid : nat) (f : Book -> Book) (s : Store) (b : Book) :
  Inv s -> NoDup (map b_id (books s)) -> find_book bid s = Some b -> b_id (f b) = bid ->
  (Inv (findByIdAndUpdate_book bid f s) <-> book_ok (txs s) (f b)).
Proof.
  intros [Hnd Hf] Hu Hb Hfb.
  destruct (find_key_some b_id bid _ _ Hb) as [Hin Hbid].
  rewrite Forall_forall in Hf. split.
  - intros [_ Hf']. rewrite Forall_forall in Hf'. apply Hf'.
    unfold findByIdAndUpdate_book. simpl. apply in_map_iff. exists b.
    rewrite Hbid, Nat.eqb_refl. split; [reflexivity | exact Hin].
  - intros Hok. split; [exact Hnd|]. apply Forall_forall. intros x Hx.
    unfold findByIdAndUpdate_book in Hx. simpl in Hx. apply in_map_iff in Hx.
    destruct Hx as [y [<- Hy]].
    destruct (Nat.eqb (b_id y) bid) eqn:E.
    + apply Nat.eqb_eq in E.
      replace y with b by (apply (nodup_key_unique b_id (books s)); congruence).
      exact Hok.
    + exact (Hf y Hy).
Qed.

(** [PUT /api/books/:id] on a book that satisfies the copy-count invariant
    (book ids being distinct): a body with only a new [totalCopies] of at
    least 1 keeps the invariant exactly when the new total is at least the
    number of copies out on loan; a body with only [availableCopies], at
    least 0, is written as it is, and keeps the invariant exactly when it is
    at most [totalCopies] and accounts for the copies out on loan. *)
Theorem update_book_invariant_iff (bid : nat) (tc ac : Z) (s : Store) (b : Book) :
  Inv s -> NoDup (map b_id (books s)) -> find_book bid s = Some b ->
  b_isActive b = true -> isDeleted b = false -> 1 <= tc -> 0 <= ac ->
  (Inv (snd (update_book bid (body_total tc) s))
   <-> Z.of_nat (count_loans bid (txs s)) <= tc) /\
  (Inv (snd (update_book bid (body_available ac) s))
   <-> ac <= totalCopies b /\ totalCopies b - ac = Z.of_nat (count_loans bid (txs s))).
Proof.
  intros HI Hu Hb Ha Hd Htc Hac.
  destruct (find_key_some b_id bid _ _ Hb) as [Hin Hbid].
  assert (Hok : book_ok (txs s) b)
    by (destruct HI as [_ Hf]; rewrite Forall_forall in Hf; exact (Hf b Hin)).
  unfold book_ok in Hok. rewrite Hbid in Hok.
  split.
  - unfold update_book. rewrite Hb, Ha, Hd.
    cbn [negb orb andb bu_totalCopies body_total].
    replace (tc =? 0) with false by (symmetry; apply Z.eqb_neq; lia).
    destruct (tc =? totalCopies b) eqn:E; cbn [negb andb].
    + apply Z.eqb_eq in E.
      replace (update_valid (body_total tc)) with true
        by (symmetry; unfold update_valid; simpl; rewrite ?andb_true_r; apply Z.leb_le; lia).
      cbn [negb snd].
      rewrite (inv_update_iff bid (apply_update (body_total tc)) s b HI Hu Hb
                 ltac:(simpl; exact Hbid)).
      unfold book_ok. simpl. rewrite Hbid. lia.
    + set (m := Z.max 0 (availableCopies b + (tc - totalCopies b))).
      replace (update_valid (set_body_availableCopies m (body_total tc))) with true
        by (symmetry; unfold update_valid, m; simpl; rewrite ?andb_true_r, ?andb_true_iff;
            split; apply Z.leb_le; lia).
      cbn [negb snd].
      rewrite (inv_update_iff bid (apply_update (set_body_availableCopies m (body_total tc))) s b
                 HI Hu Hb ltac:(simpl; exact Hbid)).
      unfold book_ok, m. simpl. rewrite Hbid. lia.
  - unfold update_book. rewrite Hb, Ha, Hd.
    cbn [negb orb andb bu_totalCopies body_available].
    replace (update_valid (body_available ac)) with true
      by (symmetry; unfold update_valid; simpl; rewrite ?andb_true_r; apply Z.leb_le; lia).
    cbn [negb snd].
    rewrite (inv_update_iff bid (apply_update (body_available ac)) s b HI Hu Hb
               ltac:(simpl; exact Hbid)).
    unfold book_ok. simpl. rewrite Hbid. lia.
Qed.

(** virtual [availabilityStatus] of a Book as its [pre('save')] hook leaves
    it: never 'out_of_stock' (a book with no copy left is 'unavailable'), and
    'unavailable' exactly when no copy is left or the book is deleted. *)
Theorem saved_book_never_out_of_stock (below_fifth : Z -> Z -> bool) (b : Book) :
  availabilityStatus below_fifth (book_pre_save b) <> AS_out_of_stock /\
  (availabilityStatus below_fifth (book_pre_save b) = AS_unavailable <->
   (0 <? availableCopies b) && negb (isDeleted b) = false).
Proof.
  unfold availabilityStatus, book_pre_save. simpl.
  destruct (0 <? availableCopies b) eqn:E; destruct (isDeleted b) eqn:D; simpl.
  2:{ apply Z.ltb_lt in E. replace (availableCopies b =? 0) with false by (symmetry; apply Z.eqb_neq; lia).
      destruct (below_fifth _ _); (split; [discriminate|]); split; intros H; discriminate H. }
  all: split; [discriminate | split; intros _; reflexivity].
Qed.

Lemma count_votes_app (h : bool) (l : list (nat * bool)) (v : nat * bool) :
  count_votes h (l ++ [v]) = count_votes h l + (if Bool.eqb (snd v) h then 1 else 0).
Proof.
  unfold count_votes. rewrite filter_app, length_app. simpl.
  destruct (Bool.eqb (snd v) h); simpl; lia.
Qed.

Lemma set_vote_found (uid : nat) (h : bool) (l : list (nat * bool)) (u : nat) (old : bool) :
  find (fun v => Nat.eqb (fst v) uid) l = Some (u, old) ->
  map fst (set_vote uid h l) = map fst l /\
  find (fun v => Nat.eqb (fst v) uid) (set_vote uid h l) = Some (u, h) /\
  (forall b, count_votes b (set_vote uid h l)
             = count_votes b l - (if Bool.eqb old b then 1 else 0)
               + (if Bool.eqb h b then 1 else 0)).
Proof.
  unfold count_votes. induction l as [|[u' h'] l IH]; simpl; [discriminate|].
  destruct (Nat.eqb u' uid) eqn:E.
  - intros H. injection H as -> ->. simpl. rewrite E. split; [reflexivity|]. split; [reflexivity|].
    intros b. cbn [filter snd]. destruct (Bool.eqb old b), (Bool.eqb h b); cbn [List.length]; lia.
  - intros H. destruct (IH H) as (H1 & H2 & H3). simpl. rewrite E, H1.
    split; [reflexivity|]. split; [exact H2|].
    intros b. specialize (H3 b). cbn [filter snd]. destruct (Bool.eqb h' b); cbn [List.length]; lia.
Qed.

Lemma vote_ok_step (uid : nat) (h : bool) (d d' : ReviewFeedback) :
  votes_ok d -> voteHelpfulness uid (JBool h) d = Some d' -> votes_ok d'.
Proof.
  intros (Hh & Hn & Hnd). unfold voteHelpfulness. cbn [strict_neq cast_Boolean truthy].
  destruct (find (fun v => Nat.eqb (fst v) uid) (voters d)) as [[u old]|] eqn:Ef.
  - destruct (Bool.eqb old h) eqn:Eo; cbn [negb]; intros E; injection E as <-;
      [split; [exact Hh | split; assumption]|].
    destruct (set_vote_found uid h _ _ _ Ef) as (H1 & _ & H3).
    unfold votes_ok. simpl. rewrite H1, !H3.
    apply Bool.eqb_false_iff in Eo.
    destruct old, h; try congruence; simpl; repeat split; try lia; exact Hnd.
  - intros E; injection E as <-.
    unfold votes_ok. simpl. rewrite !count_votes_app. simpl.
    split; [destruct h; simpl; lia|]. split; [destruct h; simpl; lia|].
    rewrite map_app. simpl. apply NoDup_app; [exact Hnd | constructor; [tauto | constructor] |].
    intros x Hx [Hux | []]. subst uid. apply in_map_iff in Hx. destruct Hx as [[x' hx] [Hx1 Hx2]].
    simpl in Hx1. subst x'.
    assert (F := find_none _ _ Ef (x, hx) Hx2). simpl in F. rewrite Nat.eqb_refl in F. discriminate.
Qed.

(** [POST /api/reviews/:id/vote] with a JSON boolean [helpful] keeps the vote
    counters equal to the counts of helpful and unhelpful voter entries, with
    one entry per user; so the two counters add up to the number of voters. *)
Theorem vote_route_keeps_tally (uid : nat) (h : bool) (d d' : ReviewFeedback) :
  votes_ok d -> snd (vote_route uid (JBool h) (Some d)) = Some d' ->
  votes_ok d' /\ helpfulVotes d' + notHelpfulVotes d' = Z.of_nat (List.length (voters d')).
Proof.
  intros Hok H.
  assert (Hok' : votes_ok d').
  { unfold vote_route, published_feedback in H. cbn [isBoolean negb] in H.
    destruct (ReviewStatus_beq (f_status d) RS_published); simpl in H;
      [|injection H as <-; exact Hok].
    destruct (Nat.eqb (f_user d) uid); simpl in H; [injection H as <-; exact Hok|].
    destruct (voteHelpfulness uid (JBool h) d) as [d1|] eqn:E; simpl in H;
      injection H as <-; [exact (vote_ok_step uid h d d1 Hok E) | exact Hok]. }
  split; [exact Hok'|].
  destruct Hok' as (Hh & Hn & _). rewrite Hh, Hn. clear. unfold count_votes.
  induction (voters d') as [|[u b] l IH]; [reflexivity|].
  destruct b; cbn [filter snd Bool.eqb List.length]; lia.
Qed.

Lemma vote_fixed (uid u : nat) (h : bool) (d : ReviewFeedback) :
  find (fun v => Nat.eqb (fst v) uid) (voters d) = Some (u, h) ->
  voteHelpfulness uid (JBool h) d = Some d.
Proof.
  intros H. unfold voteHelpfulness. rewrite H. cbn [strict_neq]. rewrite eqb_reflx. reflexivity.
Qed.

(** method [voteHelpfulness] with a JSON boolean: the save succeeds, and
    casting the same vote again has no further effect. *)
Theorem vote_repeat_no_effect (uid : nat) (h : bool) (d : ReviewFeedback) :
  match voteHelpfulness uid (JBool h) d with
  | Some d1 => voteHelpfulness uid (JBool h) d1 = Some d1
  | None => False
  end.
Proof.
  destruct (find (fun v => Nat.eqb (fst v) uid) (voters d)) as [[u old]|] eqn:Ef.
  - destruct (Bool.eqb old h) eqn:Eo.
    + apply Bool.eqb_prop in Eo. subst old. rewrite (vote_fixed uid u h d Ef).
      exact (vote_fixed uid u h d Ef).
    + destruct (set_vote_found uid h _ _ _ Ef) as (_ & H2 & _).
      unfold voteHelpfulness at 1. rewrite Ef. cbn [strict_neq cast_Boolean]. rewrite Eo.
      cbn [negb]. apply (vote_fixed uid u). exact H2.
  - unfold voteHelpfulness at 1. rewrite Ef. cbn [cast_Boolean].
    apply (vote_fixed uid uid). simpl.
    apply find_app_single.
    + intros y Hy. exact (find_none _ _ Ef y Hy).
    + simpl. apply Nat.eqb_refl.
Qed.

Lemma isBoolean_cast (v : JsonScalar) :
  isBoolean v = true -> exists c, cast_Boolean v = Some c.
Proof.
  destruct v as [b|x|n]; simpl; intros H.
  - exists b. reflexivity.
  - repeat (apply orb_true_iff in H; destruct H as [H|H]);
      apply String.eqb_eq in H; subst x; eexists; reflexivity.
  - apply orb_true_iff in H. destruct H as [H|H]; apply Z.eqb_eq in H; subst n;
      eexists; reflexivity.
Qed.

(** method [voteHelpfulness] with a value that [isBoolean()] admits but that
    is not a JSON boolean ('true', 'false', '1', '0', 1 or 0): for a user who
    has voted, [existingVote.helpful !== helpful] always holds, so every
    repeat of the vote moves the counters once more, up for a truthy value
    ('false' and '0' are truthy) and down otherwise, and leaves the voter's
    entry in place. *)
Theorem vote_non_boolean_repeat_shifts (uid u : nat) (old : bool) (v : JsonScalar)
    (d : ReviewFeedback) :
  isBoolean v = true -> (forall b, v <> JBool b) ->
  find (fun x => Nat.eqb (fst x) uid) (voters d) = Some (u, old) ->
  exists c d', cast_Boolean v = Some c /\ voteHelpfulness uid v d = Some d' /\
    helpfulVotes d' = helpfulVotes d + (if truthy v then 1 else -1) /\
    notHelpfulVotes d' = notHelpfulVotes d - (if truthy v then 1 else -1) /\
    find (fun x => Nat.eqb (fst x) uid) (voters d') = Some (u, c).
Proof.
  intros Hv Hnb Hf. destruct (isBoolean_cast v Hv) as [c Hc].
  destruct (set_vote_found uid c _ _ _ Hf) as (_ & H2 & _).
  assert (Hs : strict_neq old v = true)
    by (destruct v as [b| |]; [exfalso; exact (Hnb b eq_refl) | reflexivity | reflexivity]).
  eexists c, _. split; [exact Hc|]. split.
  - unfold voteHelpfulness. rewrite Hf, Hs, Hc. reflexivity.
  - simpl. split; [destruct (truthy v); lia|]. split; [destruct (truthy v); lia|]. exact H2.
Qed.


(** methods [like] and [unlike]: [like] never duplicates a user in
    [likes] and leaves the user in it; [unlike] removes every occurrence;
    [unlike] after [like] of a user who had not liked gives back the review. *)
Theorem like_unlike_round_trip (uid : nat) (d : ReviewFeedback) :
  NoDup (likes d) ->
  NoDup (likes (like uid d)) /\ In uid (likes (like uid d)) /\
  ~ In uid (likes (unlike uid d)) /\
  (~ In uid (likes d) -> unlike uid (like uid d) = d).
Proof.
  intros Hnd. unfold like.
  destruct (existsb (Nat.eqb uid) (likes d)) eqn:E.
  - apply existsb_exists in E. destruct E as [x [Hx Ex]]. apply Nat.eqb_eq in Ex. subst x.
    split; [exact Hnd|]. split; [exact Hx|]. split.
    + unfold unlike, with_likes. simpl. intros Hf. apply filter_In in Hf.
      destruct Hf as [_ Hf]. rewrite Nat.eqb_refl in Hf. discriminate.
    + intros Hn. contradiction.
  - assert (Hn : ~ In uid (likes d)).
    { intros Hi. assert (existsb (Nat.eqb uid) (likes d) = true) as C
        by (apply existsb_exists; exists uid; split; [exact Hi | apply Nat.eqb_refl]).
      congruence. }
    unfold with_likes. simpl. split; [|split; [|split]].
    + apply NoDup_app; [exact Hnd | constructor; [tauto | constructor] |].
      intros x Hx [<- | []]. contradiction.
    + apply in_or_app. right. left. reflexivity.
    + unfold unlike, with_likes. simpl. intros Hf. apply filter_In in Hf.
      destruct Hf as [_ Hf]. rewrite Nat.eqb_refl in Hf. discriminate.
    + intros _. unfold unlike, with_likes. simpl. rewrite filter_app. simpl.
      rewrite Nat.eqb_refl. simpl. rewrite app_nil_r.
      rewrite (forallb_filter_id _ _).
      * destruct d; reflexivity.
      * apply forallb_forall. intros x Hx. destruct (Nat.eqb x uid) eqn:Ex; [|reflexivity].
        apply Nat.eqb_eq in Ex. subst x. contradiction.
Qed.

(** [POST /api/reviews/:id/report]: [reportedBy] keeps one entry per user,
    and a second report by the same user is always refused. *)
Theorem report_once_per_user (uid : nat) (reason reason' : ReportReason) (d : ReviewFeedback) :
  NoDup (map fst (reportedBy d)) ->
  (forall d', snd (report_route uid reason (Some d)) = Some d' -> NoDup (map fst (reportedBy d'))) /\
  fst (report_route uid reason' (snd (report_route uid reason (Some d)))) <> Done.
Proof.
  intros Hnd. unfold report_route, published_feedback.
  destruct (ReviewStatus_beq (f_status d) RS_published) eqn:Ep; simpl.
  2:{ split; [intros d' H; injection H as <-; exact Hnd|]. rewrite Ep. discriminate. }
  destruct (existsb (fun p => Nat.eqb (fst p) uid) (reportedBy d)) eqn:Ex; simpl.
  - split; [intros d' H; injection H as <-; exact Hnd|]. rewrite Ep, Ex. discriminate.
  - split.
    + intros d' H. injection H as <-. simpl. rewrite map_app. simpl.
      apply NoDup_app; [exact Hnd | constructor; [tauto | constructor] |].
      intros x Hx [Hux | []]. subst uid. apply in_map_iff in Hx. destruct Hx as [[x' r] [Hx1 Hx2]].
      simpl in Hx1. subst x'.
      assert (existsb (fun p => Nat.eqb (fst p) x) (reportedBy d) = true) as C
        by (apply existsb_exists; exists (x, r); split; [exact Hx2 | apply Nat.eqb_refl]).
      congruence.
    + unfold report. cbn [f_status reportedBy]. rewrite Ep. cbn. rewrite existsb_app. simpl. rewrite Nat.eqb_refl, orb_true_r. discriminate.
Qed.

Lemma updateBookRatings_frame (bid : nat) (s : Store) :
  reviews (updateBookRatings bid s) = reviews s /\ txs (updateBookRatings bid s) = txs s /\
  users (updateBookRatings bid s) = users s.
Proof.
  unfold updateBookRatings. destruct (filter _ (reviews s)); repeat split; reflexivity.
Qed.

Lemma find_book_updateBookRatings (bid : nat) (s : Store) (b : Book) :
  find_book bid s = Some b -> published_of bid s <> [] ->
  find_book bid (updateBookRatings bid s)
  = Some (mkBook (b_id b) (totalCopies b) (availableCopies b) (isAvailable b)
            (b_isActive b) (isDeleted b) (condition b) (format b)
            (inject_Z (js_round (mean_rating (published_of bid s) * 10)) / 10)%Q
            (Z.of_nat (List.length (published_of bid s)))
            (Z.of_nat (List.length (published_of bid s)))).
Proof.
  intros Hb Hne. unfold updateBookRatings, mean_rating. fold (published_of bid s).
  destruct (published_of bid s) as [|r l] eqn:E; [contradiction|].
  rewrite (find_book_update_some bid _ s b Hb); [reflexivity|]. simpl.
  unfold find_book in Hb. apply find_some in Hb. destruct Hb as [_ Hb].
  apply Nat.eqb_eq in Hb. exact Hb.
Qed.

Lemma find_book_updateBookRatings_exists (bid k : nat) (s : Store) (b : Book) :
  find_book k s = Some b -> exists b', find_book k (updateBookRatings bid s) = Some b'.
Proof.
  intros Hb. unfold updateBookRatings. destruct (filter _ (reviews s)); [exists b; exact Hb|].
  unfold find_book, findByIdAndUpdate_book in *. simpl. revert Hb.
  induction (books s) as [|x l' IH]; simpl; [discriminate|].
  destruct (Nat.eqb (b_id x) k) eqn:E.
  - intros _. destruct (Nat.eqb (b_id x) bid); simpl; rewrite E; eexists; reflexivity.
  - intros H. destruct (Nat.eqb (b_id x) bid); simpl; rewrite E; apply IH; exact H.
Qed.

Lemma rating_sum_bounds (l : list Review) (acc : Z) :
  Forall (fun r => 1 <= rating r <= 5) l ->
  acc + Z.of_nat (List.length l) <= fold_left (fun sum r => sum + rating r) l acc
  <= acc + 5 * Z.of_nat (List.length l).
Proof.
  revert acc. induction l as [|r l IH]; intros acc H; simpl; [lia|].
  inversion H as [|? ? Hr Hl]; subst. specialize (IH (acc + rating r) Hl). lia.
Qed.

Lemma mean_rating_bounds (l : list Review) :
  l <> [] -> Forall (fun r => 1 <= rating r <= 5) l ->
  (1 <= mean_rating l <= 5)%Q.
Proof.
  intros Hne H. unfold mean_rating.
  destruct (rating_sum_bounds l 0 H) as [H1 H2].
  assert (Hn : 0 < Z.of_nat (List.length l)) by (destruct l; [contradiction | simpl; lia]).
  assert (Hq : (0 < inject_Z (Z.of_nat (List.length l)))%Q)
    by (change 0%Q with (inject_Z 0); rewrite <- Zlt_Qlt; exact Hn).
  split.
  - apply Qle_shift_div_l; [exact Hq|]. rewrite Qmult_1_l. rewrite <- Zle_Qle. lia.
  - apply Qle_shift_div_r; [exact Hq|].
    replace (5 * inject_Z (Z.of_nat (List.length l)))%Q
      with (inject_Z (5 * Z.of_nat (List.length l))) by (rewrite inject_Z_mult; reflexivity).
    rewrite <- Zle_Qle. lia.
Qed.

Lemma rounded_rating_bounds (x : Q) :
  (1 <= x <= 5)%Q -> (1 <= inject_Z (js_round (x * 10)) / 10 <= 5)%Q.
Proof.
  intros [H1 H2]. unfold js_round.
  assert (L : (10 <= Qfloor (x * 10 + (1 # 2)))%Z).
  { change 10%Z with (Qfloor (10 + (1 # 2))). apply Qfloor_resp_le.
    apply Qplus_le_compat; [|apply Qle_refl].
    rewrite Qmult_comm. change 10%Q with (10 * 1)%Q at 1.
    apply Qmult_le_l; [reflexivity | exact H1]. }
  assert (U : (Qfloor (x * 10 + (1 # 2)) <= 50)%Z).
  { change 50%Z with (Qfloor (50 + (1 # 2))). apply Qfloor_resp_le.
    apply Qplus_le_compat; [|apply Qle_refl].
    rewrite Qmult_comm. change 50%Q with (10 * 5)%Q.
    apply Qmult_le_l; [reflexivity | exact H2]. }
  split.
  - apply Qle_shift_div_l; [reflexivity|]. rewrite Qmult_1_l.
    change 10%Q with (inject_Z 10). rewrite <- Zle_Qle. exact L.
  - apply Qle_shift_div_r; [reflexivity|].
    change (5 * 10)%Q with (inject_Z 50). rewrite <- Zle_Qle. exact U.
Qed.

(** static [updateBookRatings]: when the book has published reviews, all
    rated 1 to 5, the stored average (rounded to one decimal) lies in [1, 5],
    [totalRatings] and [totalReviews] are the number of published reviews,
    and the copy counts are untouched. *)
Theorem updateBookRatings_in_range (bid : nat) (s : Store) (b : Book) :
  find_book bid s = Some b -> published_of bid s <> [] ->
  Forall (fun r => 1 <= rating r <= 5) (published_of bid s) ->
  exists b', find_book bid (updateBookRatings bid s) = Some b' /\
    (1 <= averageRating b' <= 5)%Q /\
    totalRatings b' = Z.of_nat (List.length (published_of bid s)) /\
    totalReviews b' = totalRatings b' /\
    totalCopies b' = totalCopies b /\ availableCopies b' = availableCopies b.
Proof.
  intros Hb Hne Hr. eexists. split; [exact (find_book_updateBookRatings bid s b Hb Hne)|].
  simpl. split; [|repeat split].
  apply rounded_rating_bounds, mean_rating_bounds; assumption.
Qed.

Lemma find_some_of_in {A} (p : A -> bool) (l : list A) (x : A) :
  In x l -> p x = true -> exists y, find p l = Some y.
Proof.
  intros Hx Hp. destruct (find p l) as [y|] eqn:E; [exists y; reflexivity|].
  rewrite (find_none p l E x Hx) in Hp. discriminate.
Qed.

Lemma create_review_frame (uid book tid : nat) (rating_ : Z) (bu : option nat)
    (bs : option ReviewStatus) (s : Store) (u : User) (t : Transaction) :
  find_user uid s = Some u -> In t (txs s) -> t_id t = tid -> t_user t = uid ->
  status t = S_completed ->
  (forall r, In r (reviews s) -> r_user r = uid -> r_book r = book -> r_status r = RS_removed) ->
  fst (create_review uid book tid rating_ bu bs s) = Done /\
  reviews (snd (create_review uid book tid rating_ bu bs s))
    = reviews s ++ [mkReview (new_review_id (reviews s))
                      (match bu with Some v => v | None => uid end) book rating_
                      (match bs with Some st => st | None => RS_published end)] /\
  txs (snd (create_review uid book tid rating_ bu bs s)) = txs s /\
  users (snd (create_review uid book tid rating_ bu bs s)) = users s.
Proof.
  intros Hu Ht Hid Hus Hst Hr. unfold create_review. rewrite Hu.
  destruct (find_some_of_in (fun t => Nat.eqb (t_id t) tid && Nat.eqb (t_user t) uid
                         && TxStatus_beq (status t) S_completed) (txs s) t Ht) as [t' Et].
  { rewrite Hid, Hus, Hst, !Nat.eqb_refl. reflexivity. }
  rewrite Et.
  destruct (find (fun r => Nat.eqb (r_user r) uid && Nat.eqb (r_book r) book
                           && negb (ReviewStatus_beq (r_status r) RS_removed)) (reviews s))
    as [r|] eqn:Er.
  { apply find_some in Er. destruct Er as [Hin Hp].
    apply andb_prop in Hp. destruct Hp as [Hp Hn]. apply andb_prop in Hp. destruct Hp as [H1 H2].
    apply Nat.eqb_eq in H1, H2. rewrite (Hr r Hin H1 H2) in Hn. discriminate. }
  cbn zeta. cbn [fst snd].
  match goal with |- context [if ?c then updateBookRatings book s else s] =>
    destruct c end;
  destruct (updateBookRatings_frame book s) as (F1 & F2 & F3);
  match goal with |- context [updateBookRatings book ?s2] =>
    destruct (updateBookRatings_frame book s2) as (G1 & G2 & G3) end;
  rewrite G1, G2, G3; cbn [reviews txs users with_reviews];
  rewrite ?F1, ?F2, ?F3; repeat split; reflexivity.
Qed.

(** [POST /api/reviews]: a requester with a completed transaction of their
    own and no live review of the book gets the review appended, with the
    body's [user] and [status] overriding the defaults; the transaction's book
    is never compared with the reviewed book.  A second post by the same
    requester for the same book and transaction, when the first used the default user and a
    status other than 'removed', is refused. *)
Theorem create_review_records (uid book tid : nat) (rating_ : Z) (bu : option nat)
    (bs : option ReviewStatus) (s : Store) (u : User) (t : Transaction) :
  find_user uid s = Some u -> In t (txs s) -> t_id t = tid -> t_user t = uid ->
  status t = S_completed ->
  (forall r, In r (reviews s) -> r_user r = uid -> r_book r = book -> r_status r = RS_removed) ->
  fst (create_review uid book tid rating_ bu bs s) = Done /\
  reviews (snd (create_review uid book tid rating_ bu bs s))
    = reviews s ++ [mkReview (new_review_id (reviews s))
                      (match bu with Some v => v | None => uid end) book rating_
                      (match bs with Some st => st | None => RS_published end)] /\
  (bu = None -> bs <> Some RS_removed -> forall rating' bu' bs',
     fst (create_review uid book tid rating' bu' bs'
            (snd (create_review uid book tid rating_ bu bs s)))
     = Refused 400 "You have already reviewed this book").
Proof.
  intros Hu Ht Hid Hus Hst Hr.
  destruct (create_review_frame uid book tid rating_ bu bs s u t Hu Ht Hid Hus Hst Hr)
    as (D & R & T & U).
  split; [exact D|]. split; [exact R|].
  intros -> Hbs rating' bu' bs'.
  set (s' := snd (create_review uid book tid rating_ None bs s)) in *.
  unfold create_review at 1.
  assert (Hu' : find_user uid s' = Some u) by (unfold find_user; rewrite U; exact Hu).
  rewrite Hu'.
  destruct (find_some_of_in (fun t => Nat.eqb (t_id t) tid && Nat.eqb (t_user t) uid
                         && TxStatus_beq (status t) S_completed) (txs s') t) as [t' Et].
  { rewrite T. exact Ht. }
  { rewrite Hid, Hus, Hst, !Nat.eqb_refl. reflexivity. }
  rewrite Et.
  destruct (find_some_of_in (fun r => Nat.eqb (r_user r) uid && Nat.eqb (r_book r) book
                           && negb (ReviewStatus_beq (r_status r) RS_removed)) (reviews s')
    (mkReview (new_review_id (reviews s)) uid book rating_
       (match bs with Some st => st | None => RS_published end))) as [r' Er].
  { rewrite R. apply in_or_app. right. left. reflexivity. }
  { simpl. rewrite !Nat.eqb_refl. simpl.
    destruct bs as [[]|]; try reflexivity. contradiction. }
  rewrite Er. reflexivity.
Qed.

Lemma create_review_state (uid book tid : nat) (rating_ : Z) (bu : option nat)
    (bs : option ReviewStatus) (s : Store) (u : User) (t : Transaction) :
  find_user uid s = Some u -> In t (txs s) -> t_id t = tid -> t_user t = uid ->
  status t = S_completed ->
  (forall r, In r (reviews s) -> r_user r = uid -> r_book r = book -> r_status r = RS_removed) ->
  let r := mkReview (new_review_id (reviews s))
             (match bu with Some v => v | None => uid end) book rating_
             (match bs with Some st => st | None => RS_published end) in
  let s1 := if ReviewStatus_beq (r_status r) RS_published
            then updateBookRatings book s else s in
  snd (create_review uid book tid rating_ bu bs s)
  = updateBookRatings book (with_reviews (reviews s1 ++ [r]) s1).
Proof.
  intros Hu Ht Hid Hus Hst Hr. unfold create_review. rewrite Hu.
  destruct (find_some_of_in (fun t => Nat.eqb (t_id t) tid && Nat.eqb (t_user t) uid
                         && TxStatus_beq (status t) S_completed) (txs s) t Ht) as [t' Et].
  { rewrite Hid, Hus, Hst, !Nat.eqb_refl. reflexivity. }
  rewrite Et.
  destruct (find (fun r => Nat.eqb (r_user r) uid && Nat.eqb (r_book r) book
                           && negb (ReviewStatus_beq (r_status r) RS_removed)) (reviews s))
    as [r|] eqn:Er; [|reflexivity].
  apply find_some in Er. destruct Er as [Hin Hp].
  apply andb_prop in Hp. destruct Hp as [Hp Hn]. apply andb_prop in Hp. destruct Hp as [H1 H2].
  apply Nat.eqb_eq in H1, H2. rewrite (Hr r Hin H1 H2) in Hn. discriminate.
Qed.

(** [POST /api/reviews] with the default status: the new review is published
    and the book's [totalReviews] and [totalRatings] become one more than the
    number of its published reviews before. *)
Theorem create_review_updates_counts (uid book tid : nat) (rating_ : Z) (bu : option nat)
    (s : Store) (u : User) (t : Transaction) (b : Book) :
  find_user uid s = Some u -> In t (txs s) -> t_id t = tid -> t_user t = uid ->
  status t = S_completed ->
  (forall r, In r (reviews s) -> r_user r = uid -> r_book r = book -> r_status r = RS_removed) ->
  find_book book s = Some b ->
  published_of book (snd (create_review uid book tid rating_ bu None s))
    = published_of book s
      ++ [mkReview (new_review_id (reviews s)) (match bu with Some v => v | None => uid end)
            book rating_ RS_published] /\
  exists b', find_book book (snd (create_review uid book tid rating_ bu None s)) = Some b' /\
    totalReviews b' = Z.of_nat (List.length (published_of book s)) + 1 /\
    totalRatings b' = totalReviews b'.
Proof.
  intros Hu Ht Hid Hus Hst Hr Hb.
  rewrite (create_review_state uid book tid rating_ bu None s u t Hu Ht Hid Hus Hst Hr).
  cbv zeta. cbn [r_status ReviewStatus_beq].
  set (r := mkReview (new_review_id (reviews s)) (match bu with Some v => v | None => uid end)
              book rating_ RS_published).
  set (s1 := updateBookRatings book s).
  destruct (updateBookRatings_frame book s) as (F1 & _ & _). fold s1 in F1.
  set (s2 := with_reviews (reviews s1 ++ [r]) s1).
  assert (P : published_of book s2 = published_of book s ++ [r]).
  { unfold published_of, s2. simpl. rewrite F1, filter_app. simpl.
    rewrite Nat.eqb_refl. reflexivity. }
  destruct (updateBookRatings_frame book s2) as (G1 & _ & _).
  assert (Pe : published_of book (updateBookRatings book s2) = published_of book s2)
    by (unfold published_of; rewrite G1; reflexivity).
  split; [rewrite Pe; exact P|].
  destruct (find_book_updateBookRatings_exists book book s b Hb) as [b1 Hb1]. fold s1 in Hb1.
  assert (Hb2 : find_book book s2 = Some b1) by exact Hb1.
  assert (Hne : published_of book s2 <> []) by (rewrite P; destruct (published_of book s); discriminate).
  eexists. split; [exact (find_book_updateBookRatings book s2 b1 Hb2 Hne)|].
  simpl. rewrite P, length_app. simpl. split; [lia | reflexivity].
Qed.

Lemma tx_pre_save_status_inactive (now : Z) (n : bool) (t : Transaction) :
  status t <> S_active -> status (tx_pre_save now n t) = status t.
Proof.
  intros H. unfold tx_pre_save.
  destruct (n && TxType_beq (t_type t) T_borrow
            && match dueDate t with None => true | Some _ => false end); simpl;
  replace (TxStatus_beq (status t) S_active) with false
    by (destruct (status t); simpl; congruence);
  rewrite andb_false_r; reflexivity.
Qed.

Lemma reserve_ok_inv (now : Z) (uid bid : nat) (s : Store) :
  fst (reserve now uid bid s) = Ok ->
  (exists u, find_user uid s = Some u) /\
  (exists b, find_book bid s = Some b /\ b_isActive b = true /\ isDeleted b = false) /\
  (forall t, In t (txs s) -> t_user t = uid -> t_book t = bid ->
             is_loan (status t) = false /\ status t <> S_pending) /\
  snd (reserve now uid bid s)
  = with_txs (txs s ++ [new_tx (new_id (txs s)) uid bid T_reserve S_pending now
                          (Some now) (Some (now + 7 * DAY)) C_good]) s.
Proof.
  unfold reserve.
  destruct (find_user uid s) as [u|]; [|discriminate].
  destruct (find_book bid s) as [b|]; [|discriminate].
  destruct (negb (b_isActive b) || isDeleted b) eqn:Eb; [discriminate|].
  destruct (find _ (txs s)) as [t|] eqn:Ef; [discriminate|].
  intros _. split; [eexists; reflexivity|].
  apply orb_false_iff in Eb. destruct Eb as [Ea Ed]. apply negb_false_iff in Ea.
  split; [exists b; repeat split; assumption|].
  split; [|reflexivity].
  intros t Ht Hu Hb. assert (F := find_none _ _ Ef t Ht). simpl in F.
  rewrite Hu, Hb, !Nat.eqb_refl in F. simpl in F.
  apply orb_false_iff in F. destruct F as [F1 F2]. split; [exact F1|].
  intros E. rewrite E in F2. discriminate.
Qed.

(** [POST /api/books/:id/reserve] then [POST /api/books/:id/cancel-reservation]:
    the cancel succeeds, books and users are unchanged, no copy is lent, a
    second cancel finds nothing, and the user can reserve the book again. *)
Theorem reserve_cancel_round_trip (now now' now'' : Z) (uid bid : nat) (s : Store) :
  fst (reserve now uid bid s) = Ok ->
  fst (cancel_reservation now' uid bid (snd (reserve now uid bid s))) = Ok /\
  books (snd (cancel_reservation now' uid bid (snd (reserve now uid bid s)))) = books s /\
  users (snd (cancel_reservation now' uid bid (snd (reserve now uid bid s)))) = users s /\
  count_loans bid (txs (snd (cancel_reservation now' uid bid (snd (reserve now uid bid s)))))
    = count_loans bid (txs s) /\
  fst (cancel_reservation now'' uid bid
         (snd (cancel_reservation now' uid bid (snd (reserve now uid bid s)))))
    = Fail NotFound /\
  fst (reserve now'' uid bid
         (snd (cancel_reservation now' uid bid (snd (reserve now uid bid s))))) = Ok.
Proof.
  intros Hok. destruct (reserve_ok_inv now uid bid s Hok) as ([u Hu] & (b & Hb & Ha & Hd) & Hno & Hs).
  rewrite Hs.
  set (t0 := new_tx (new_id (txs s)) uid bid T_reserve S_pending now (Some now)
                (Some (now + 7 * DAY)) C_good).
  set (pc := fun t => Nat.eqb (t_user t) uid && Nat.eqb (t_book t) bid
                      && TxType_beq (t_type t) T_reserve && TxStatus_beq (status t) S_pending).
  assert (Hpc : forall t, In t (txs s) -> pc t = false).
  { intros t Ht. unfold pc.
    destruct (Nat.eqb (t_user t) uid) eqn:E1; [|reflexivity].
    destruct (Nat.eqb (t_book t) bid) eqn:E2; [|reflexivity].
    apply Nat.eqb_eq in E1, E2. destruct (Hno t Ht E1 E2) as [_ Hp].
    simpl. destruct (status t); simpl; rewrite ?andb_false_r; congruence. }
  assert (Hf : find pc (txs s ++ [t0]) = Some t0).
  { apply find_app_single; [exact Hpc|]. unfold pc, t0. simpl. rewrite !Nat.eqb_refl. reflexivity. }
  set (t0c := tx_pre_save now' false (set_status S_cancelled t0)).
  assert (Hid : t_id t0c = t_id t0) by exact (proj1 (tx_pre_save_keys now' false (set_status S_cancelled t0))).
  assert (Hst : status t0c = S_cancelled)
    by (unfold t0c; rewrite tx_pre_save_status_inactive; [reflexivity | discriminate]).
  assert (Htxs : replace_by_key t_id t0c (txs s ++ [t0]) = txs s ++ [t0c]).
  { assert (A : replace_by_key t_id t0c (txs s) = txs s).
    { apply replace_absent. intros y Hy Heq. pose proof (new_id_fresh _ _ Hy) as Hf'.
      rewrite Heq in Hf'. cbv beta in Hf'. rewrite Hid in Hf'. unfold t0 in Hf'. simpl in Hf'. lia. }
    unfold replace_by_key in *. rewrite map_app, A. f_equal.
    cbn [map]. rewrite Hid, Nat.eqb_refl. reflexivity. }
  assert (Hc : cancel_reservation now' uid bid (with_txs (txs s ++ [t0]) s)
               = (Ok, with_txs (txs s ++ [t0c]) s)).
  { unfold cancel_reservation. unfold find_user at 1. simpl. fold (find_user uid s). rewrite Hu.
    change (find pc (txs s ++ [t0])) with
      (find (fun t => Nat.eqb (t_user t) uid && Nat.eqb (t_book t) bid
                      && TxType_beq (t_type t) T_reserve && TxStatus_beq (status t) S_pending)
            (txs s ++ [t0])) in Hf.
    rewrite Hf. unfold save_tx. simpl. fold t0c. rewrite Htxs. reflexivity. }
  rewrite Hc. cbn [fst snd]. split; [reflexivity|]. split; [reflexivity|]. split; [reflexivity|].
  assert (Hnot : forall t, In t (txs s ++ [t0c]) -> t_user t = uid -> t_book t = bid ->
                           is_loan (status t) = false /\ status t <> S_pending).
  { intros t Ht Hu' Hb'. apply in_app_or in Ht. destruct Ht as [Ht | [<- | []]].
    - exact (Hno t Ht Hu' Hb').
    - rewrite Hst. split; [reflexivity | discriminate]. }
  split; [|split].
  - simpl. rewrite count_loans_app. unfold ind_loan. rewrite Hst.
    rewrite andb_false_r. lia.
  - unfold cancel_reservation. unfold find_user at 1. simpl. fold (find_user uid s). rewrite Hu.
    replace (find _ (txs s ++ [t0c])) with (@None Transaction); [reflexivity|].
    symmetry. apply find_none_forall. intros t Ht.
    destruct (Nat.eqb (t_user t) uid) eqn:E1; [|reflexivity].
    destruct (Nat.eqb (t_book t) bid) eqn:E2; [|reflexivity].
    apply Nat.eqb_eq in E1, E2. destruct (Hnot t Ht E1 E2) as [_ Hp].
    simpl. destruct (status t); simpl; rewrite ?andb_false_r; congruence.
  - unfold reserve. unfold find_user at 1. simpl. fold (find_user uid s). rewrite Hu.
    unfold find_book at 1. simpl. fold (find_book bid s). rewrite Hb, Ha, Hd. simpl.
    replace (find _ (txs s ++ [t0c])) with (@None Transaction); [reflexivity|].
    symmetry. apply find_none_forall. intros t Ht.
    destruct (Nat.eqb (t_user t) uid) eqn:E1; [|reflexivity].
    destruct (Nat.eqb (t_book t) bid) eqn:E2; [|reflexivity].
    apply Nat.eqb_eq in E1, E2. destruct (Hnot t Ht E1 E2) as [Hl Hp].
    simpl. rewrite Hl. destruct (status t); simpl; congruence.
Qed.

(** ** The properties above at concrete inputs *)

Lemma page_hasNext_witness : page_of 2 2 [1; 2; 3]%nat <> [].
Proof.
  exact (proj1 (page_hasNext 1 2 [1; 2; 3]%nat ltac:(lia) ltac:(lia)) eq_refl).
Defined.

Lemma findDueSoon_window_witness :
  exists k, daysUntilDue 0 (sample_loan S_active (2 * DAY)) = Some k /\ 0 <= k <= 3.
Proof.
  refine (proj1 (findDueSoon_window 0 3 [sample_loan S_active (2 * DAY)]
                   (sample_loan S_active (2 * DAY)) _)).
  vm_compute. left. reflexivity.
Defined.

Lemma settled_fine_survives_return_witness :
  fst (return_tx DAY 1 None EmptyString true
         (snd (fine_update 0 1 (Some 500) (Some F_paid) renew_store))) = Ok.
Proof.
  exact (proj1 (settled_fine_survives_return 0 DAY 1 None EmptyString true 500 F_paid renew_store
                  (sample_loan S_active (10 * DAY)) eq_refl eq_refl (or_introl eq_refl))).
Defined.

Lemma delete_book_guarded_witness :
  snd (delete_book 1 renew_store) = renew_store /\ fst (delete_book 1 renew_store) <> Done.
Proof.
  refine (proj2 (delete_book_guarded 1 renew_store _) _).
  - split; [repeat constructor; simpl; tauto|]. repeat constructor; vm_compute; discriminate.
  - vm_compute. lia.
Defined.

Lemma deleted_book_stays_gone_witness :
  fst (borrow 0 1 1 (snd (delete_book 1 (mkStore [fresh_book 1 1 paperback]
                                           [sample_user 1 M_basic] [] []))))
  = Fail NotFound.
Proof.
  exact (proj1 (deleted_book_stays_gone 1 1 0 (body_total 2)
                  (mkStore [fresh_book 1 1 paperback] [sample_user 1 M_basic] [] [])
                  (sample_user 1 M_basic) eq_refl eq_refl)).
Defined.

Lemma update_book_invariant_iff_witness :
  Inv (snd (update_book 1 (body_total 2) renew_store)).
Proof.
  refine (proj2 (proj1 (update_book_invariant_iff 1 2 0 renew_store
                   (set_availableCopies 0 (fresh_book 1 1 paperback)) _ _ eq_refl eq_refl eq_refl
                   _ _)) _).
  - split; [repeat constructor; simpl; tauto|]. repeat constructor; vm_compute; discriminate.
  - repeat constructor; simpl; tauto.
  - lia.
  - lia.
  - vm_compute. discriminate.
Defined.

Lemma vote_route_keeps_tally_witness :
  votes_ok (mkFeedback RS_published 2 1 0 [(1%nat, true)] [] []) /\
  helpfulVotes (mkFeedback RS_published 2 1 0 [(1%nat, true)] [] [])
  + notHelpfulVotes (mkFeedback RS_published 2 1 0 [(1%nat, true)] [] [])
  = Z.of_nat (List.length (voters (mkFeedback RS_published 2 1 0 [(1%nat, true)] [] []))).
Proof.
  refine (vote_route_keeps_tally 1 true (mkFeedback RS_published 2 0 0 [] [] [])
            (mkFeedback RS_published 2 1 0 [(1%nat, true)] [] []) _ _).
  - split; [reflexivity | split; [reflexivity | constructor]].
  - vm_compute. reflexivity.
Defined.

Lemma vote_non_boolean_repeat_shifts_witness :
  exists c d', cast_Boolean (JStr "true") = Some c /\
    voteHelpfulness 1 (JStr "true") (mkFeedback RS_published 2 1 0 [(1%nat, true)] [] [])
    = Some d' /\ helpfulVotes d' = 2 /\ notHelpfulVotes d' = -1 /\
    find (fun x => Nat.eqb (fst x) 1) (voters d') = Some (1%nat, c).
Proof.
  destruct (vote_non_boolean_repeat_shifts 1 1 true (JStr "true")
              (mkFeedback RS_published 2 1 0 [(1%nat, true)] [] []) eq_refl
              ltac:(discriminate) eq_refl) as (c & d' & H1 & H2 & H3 & H4 & H5).
  exists c, d'. split; [exact H1|]. split; [exact H2|].
  split; [rewrite H3; reflexivity|]. split; [rewrite H4; reflexivity|]. exact H5.
Defined.

Lemma like_unlike_round_trip_witness :
  unlike 1 (like 1 (mkFeedback RS_published 2 0 0 [] [3%nat] []))
  = mkFeedback RS_published 2 0 0 [] [3%nat] [].
Proof.
  refine (proj2 (proj2 (proj2 (like_unlike_round_trip 1 (mkFeedback RS_published 2 0 0 [] [3%nat] []) _))) _).
  - repeat constructor. simpl. tauto.
  - simpl. intros [H|[]]. discriminate.
Defined.

Lemma report_once_per_user_witness :
  fst (report_route 1 spam (snd (report_route 1 spam (Some (mkFeedback RS_published 2 0 0 [] [] [])))))
  <> Done.
Proof.
  refine (proj2 (report_once_per_user 1 spam spam (mkFeedback RS_published 2 0 0 [] [] []) _)).
  constructor.
Defined.

Lemma updateBookRatings_in_range_witness :
  exists b', find_book 1 (updateBookRatings 1
               (mkStore [fresh_book 1 1 paperback] [] []
                  [mkReview 1 1 1 4 RS_published; mkReview 2 2 1 5 RS_published])) = Some b' /\
             (1 <= averageRating b' <= 5)%Q.
Proof.
  destruct (updateBookRatings_in_range 1
              (mkStore [fresh_book 1 1 paperback] [] []
                 [mkReview 1 1 1 4 RS_published; mkReview 2 2 1 5 RS_published])
              (fresh_book 1 1 paperback) eq_refl ltac:(discriminate) ltac:(repeat constructor; discriminate))
    as (b' & H1 & H2 & _).
  exists b'. split; assumption.
Defined.

Lemma create_review_records_witness :
  fst (create_review 1 2 1 5 None None
         (mkStore [fresh_book 1 1 paperback; fresh_book 2 1 paperback] [sample_user 1 M_basic]
            [sample_loan S_completed DAY] [])) = Done.
Proof.
  refine (proj1 (create_review_records 1 2 1 5 None None
                   (mkStore [fresh_book 1 1 paperback; fresh_book 2 1 paperback]
                      [sample_user 1 M_basic] [sample_loan S_completed DAY] [])
                   (sample_user 1 M_basic) (sample_loan S_completed DAY)
                   eq_refl (or_introl eq_refl) eq_refl eq_refl eq_refl _)).
  intros r [].
Defined.

Lemma create_review_updates_counts_witness :
  exists b', find_book 2 (snd (create_review 1 2 1 5 None None
         (mkStore [fresh_book 1 1 paperback; fresh_book 2 1 paperback] [sample_user 1 M_basic]
            [sample_loan S_completed DAY] []))) = Some b' /\ totalReviews b' = 1.
Proof.
  destruct (create_review_updates_counts 1 2 1 5 None
              (mkStore [fresh_book 1 1 paperback; fresh_book 2 1 paperback]
                 [sample_user 1 M_basic] [sample_loan S_completed DAY] [])
              (sample_user 1 M_basic) (sample_loan S_completed DAY) (fresh_book 2 1 paperback)
              eq_refl (or_introl eq_refl) eq_refl eq_refl eq_refl (fun r H => False_ind _ H) eq_refl)
    as [_ (b' & H1 & H2 & _)].
  exists b'. split; [exact H1 | exact H2].
Defined.

Lemma reserve_cancel_round_trip_witness :
  fst (reserve (2 * DAY) 1 1
         (snd (cancel_reservation DAY 1 1
                 (snd (reserve 0 1 1 (mkStore [fresh_book 1 1 paperback]
                                        [sample_user 1 M_basic] [] [])))))) = Ok.
Proof.
  exact (proj2 (proj2 (proj2 (proj2 (proj2 (reserve_cancel_round_trip 0 DAY (2 * DAY) 1 1
           (mkStore [fresh_book 1 1 paperback] [sample_user 1 M_basic] [] []) eq_refl)))))).
Defined.
